(** * GenDocs: an invoice and quotation manager over browser storage

    A shallow embedding of [src/index.tsx]: the domain records, the
    [useLocalStorage] hook, the customer form, the document creator with its
    AI draft generator, and the totals shown by the dashboard.

    Numbers are JavaScript numbers, that is IEEE-754 binary64 values: Rocq's
    primitive [float].  Strings are [string].  The browser is a part of the
    state: [localStorage] with its quota, the clock behind [Date.now], the
    generator behind [Math.random], and the logs of [alert], [console.error]
    and of the requests sent to the AI service. *)

From Stdlib Require Import ZArith List Ascii Uint63.
From Stdlib Require Import Floats.PrimFloat Floats.SpecFloat Floats.FloatOps.
From stdpp Require Import gmap strings list pretty.

(** A JavaScript number. *)
Abbreviation number := float.

(** ** Types *)

Module Customer.
Record t := mk {
  id : string;
  name : string;
  email : string;
  address : string;
}.
End Customer.

Module LineItem.
Record t := mk {
  id : string;
  description : string;
  quantity : number;
  unitPrice : number;
}.
End LineItem.

Inductive DocumentType := Invoice | Quotation.

Module Document.
Record t := mk {
  id : string;
  customerId : string;
  type : DocumentType;
  date : string;
  lineItems : list LineItem.t;
}.
End Document.

(** ** The browser *)

(** [window.localStorage]: string keys to string values, under a quota on the
    characters held.  [getItem] answers [null] ([None]) for an absent key;
    [setItem] raises [QuotaExceededError] ([None]) when the new contents
    would not fit, and then stores nothing. *)
Record Storage := {
  entries : gmap string string;
  quota : nat;
}.

Definition usage (m : gmap string string) : nat :=
  map_fold (λ k v n, String.length k + String.length v + n) 0 m.

Definition Storage_getItem (key : string) (s : Storage) : option string :=
  entries s !! key.

Definition Storage_setItem (key value : string) (s : Storage) : option Storage :=
  let m := <[key:=value]> (entries s) in
  if decide (usage m ≤ quota s) then Some {| entries := m; quota := quota s |}
  else None.

(** What a JavaScript [throw] carries in this program. *)
Inductive exn :=
  | SyntaxError          (* JSON.parse on a text that is not JSON *)
  | TypeError            (* property of null, call of a non-function *)
  | QuotaExceededError   (* localStorage.setItem *)
  | RequestError.        (* ai.models.generateContent rejected *)

(** The world outside React.  The [n]-th call of [Date.now] (or [new Date])
    reads [clock n] milliseconds, the [n]-th call of [Math.random] draws
    [random n]; the counters say how many calls were made. *)
Record World := {
  localStorage : Storage;
  clock : nat → Z;
  clock_reads : nat;
  random : nat → number;
  random_reads : nat;
  alerts : list string;             (* alert(...), oldest first *)
  console : list (string * exn);    (* console.error(...), oldest first *)
  requests : list string;           (* prompts sent to generateContent *)
}.

(** ** React state *)

(** [App]: the active view and the two stored collections. *)
Record App := {
  activeView : string;
  customers : list Customer.t;
  documents : list Document.t;
}.

(** [CustomerManager]: the three inputs of the form. *)
Record Form := {
  name : string;
  email : string;
  address : string;
}.

(** [DocumentCreator]: the draft. *)
Record Draft := {
  type : DocumentType;
  customerId : string;
  lineItems : list LineItem.t;
  aiPrompt : string;
  isLoading : bool;
}.

Record State := {
  app : App;
  form : Form;
  draft : Draft;
  world : World;
}.

Definition modify_app (f : App → App) (s : State) : State :=
  {| app := f (app s); form := form s; draft := draft s; world := world s |}.
Definition modify_form (f : Form → Form) (s : State) : State :=
  {| app := app s; form := f (form s); draft := draft s; world := world s |}.
Definition modify_draft (f : Draft → Draft) (s : State) : State :=
  {| app := app s; form := form s; draft := f (draft s); world := world s |}.
Definition modify_world (f : World → World) (s : State) : State :=
  {| app := app s; form := form s; draft := draft s; world := f (world s) |}.

Definition with_activeView (v : string) (a : App) : App :=
  {| activeView := v; customers := customers a; documents := documents a |}.
Definition with_customers (v : list Customer.t) (a : App) : App :=
  {| activeView := activeView a; customers := v; documents := documents a |}.
Definition with_documents (v : list Document.t) (a : App) : App :=
  {| activeView := activeView a; customers := customers a; documents := v |}.

Definition with_type (v : DocumentType) (d : Draft) : Draft :=
  {| type := v; customerId := customerId d; lineItems := lineItems d;
     aiPrompt := aiPrompt d; isLoading := isLoading d |}.
Definition with_customerId (v : string) (d : Draft) : Draft :=
  {| type := type d; customerId := v; lineItems := lineItems d;
     aiPrompt := aiPrompt d; isLoading := isLoading d |}.
Definition with_lineItems (v : list LineItem.t) (d : Draft) : Draft :=
  {| type := type d; customerId := customerId d; lineItems := v;
     aiPrompt := aiPrompt d; isLoading := isLoading d |}.
Definition with_aiPrompt (v : string) (d : Draft) : Draft :=
  {| type := type d; customerId := customerId d; lineItems := lineItems d;
     aiPrompt := v; isLoading := isLoading d |}.
Definition with_isLoading (v : bool) (d : Draft) : Draft :=
  {| type := type d; customerId := customerId d; lineItems := lineItems d;
     aiPrompt := aiPrompt d; isLoading := v |}.

Definition with_localStorage (v : Storage) (w : World) : World :=
  {| localStorage := v; clock := clock w; clock_reads := clock_reads w;
     random := random w; random_reads := random_reads w;
     alerts := alerts w; console := console w; requests := requests w |}.
Definition with_clock_reads (v : nat) (w : World) : World :=
  {| localStorage := localStorage w; clock := clock w; clock_reads := v;
     random := random w; random_reads := random_reads w;
     alerts := alerts w; console := console w; requests := requests w |}.
Definition with_random_reads (v : nat) (w : World) : World :=
  {| localStorage := localStorage w; clock := clock w;
     clock_reads := clock_reads w;
     random := random w; random_reads := v;
     alerts := alerts w; console := console w; requests := requests w |}.
Definition with_alerts (v : list string) (w : World) : World :=
  {| localStorage := localStorage w; clock := clock w;
     clock_reads := clock_reads w;
     random := random w; random_reads := random_reads w;
     alerts := v; console := console w; requests := requests w |}.
Definition with_console (v : list (string * exn)) (w : World) : World :=
  {| localStorage := localStorage w; clock := clock w;
     clock_reads := clock_reads w;
     random := random w; random_reads := random_reads w;
     alerts := alerts w; console := v; requests := requests w |}.
Definition with_requests (v : list string) (w : World) : World :=
  {| localStorage := localStorage w; clock := clock w;
     clock_reads := clock_reads w;
     random := random w; random_reads := random_reads w;
     alerts := alerts w; console := console w; requests := v |}.

(** ** Handlers as state transformers with exceptions *)

(** How a piece of JavaScript ends: normally with a value, or by a [throw].
    [IllTyped] ends a run of the model, not of the program: a value that the
    TypeScript source declares as a [LineItem] is not one (the only such
    place is the unchecked [any] that [JSON.parse] returns to the AI
    handler), and the typed records of this file cannot follow it.  No
    handler catches it. *)
Inductive completion (A : Type) :=
  | Normal (a : A)
  | Throw (e : exn)
  | IllTyped.
Arguments Normal {A} a.
Arguments Throw {A} e.
Arguments IllTyped {A}.

Definition M (A : Type) : Type := State → completion A * State.

Definition ret {A} (a : A) : M A := λ s, (Normal a, s).

Definition bind {A B} (m : M A) (k : A → M B) : M B := λ s,
  match m s with
  | (Normal a, s') => k a s'
  | (Throw e, s') => (Throw e, s')
  | (IllTyped, s') => (IllTyped, s')
  end.

Definition throw {A} (e : exn) : M A := λ s, (Throw e, s).

Definition ill_typed {A} : M A := λ s, (IllTyped, s).

(** [try { body } catch (error) { handler }]: what [body] changed before it
    threw stays changed. *)
Definition try_catch {A} (body : M A) (handler : exn → M A) : M A := λ s,
  match body s with
  | (Throw e, s') => handler e s'
  | r => r
  end.

(** [try { body } finally { cleanup }]. *)
Definition try_finally {A} (body : M A) (cleanup : M unit) : M A := λ s,
  match body s with
  | (r, s') =>
      match cleanup s' with
      | (Normal _, s'') => (r, s'')
      | (Throw e, s'') => (Throw e, s'')
      | (IllTyped, s'') => (IllTyped, s'')
      end
  end.

Definition get : M State := λ s, (Normal s, s).
Definition modify (f : State → State) : M unit := λ s, (Normal tt, f s).

Declare Scope js_scope.
Delimit Scope js_scope with js.
Notation "'let!' x ':=' m 'in' k" := (bind m (λ x, k))
  (at level 10, x name, m at level 100, k at level 200) : js_scope.
Notation "m ';;' k" := (bind m (λ _, k))
  (at level 100, k at level 200, right associativity) : js_scope.
Local Open Scope js_scope.

(** The state a run ends in, and how it ends. *)
Definition exec {A} (m : M A) (s : State) : State := snd (m s).
Definition outcome {A} (m : M A) (s : State) : completion A := fst (m s).

(** *** Browser calls *)

Definition localStorage_getItem (key : string) : M (option string) :=
  let! s := get in ret (Storage_getItem key (localStorage (world s))).

Definition localStorage_setItem (key value : string) : M unit :=
  let! s := get in
  match Storage_setItem key value (localStorage (world s)) with
  | Some store => modify (modify_world (with_localStorage store))
  | None => throw QuotaExceededError
  end.

Definition Date_now : M Z := λ s,
  let w := world s in
  (Normal (clock w (clock_reads w)),
   modify_world (with_clock_reads (S (clock_reads w))) s).

Definition Math_random : M number := λ s,
  let w := world s in
  (Normal (random w (random_reads w)),
   modify_world (with_random_reads (S (random_reads w))) s).

Definition alert (message : string) : M unit :=
  modify (modify_world (λ w, with_alerts (alerts w ++ [message]) w)).

Definition console_error (message : string) (error : exn) : M unit :=
  modify (modify_world (λ w, with_console (console w ++ [(message, error)]) w)).

(** [Date.now().toString()]: the decimal digits of an integer number of
    milliseconds. *)
Definition timestamp_toString (ms : Z) : string := pretty ms.

(** Library functions whose text is not computed here: how a fractional
    number prints when it is appended to a string ([ToString] of a number),
    and [Date.prototype.toISOString] of a time in milliseconds. *)
Class Builtins := {
  Number_toString : number → string;
  Date_toISOString : Z → string;
}.

(** [JSON.stringify] and [JSON.parse] at the type [T] the program gives to
    the value; [None] is a thrown [SyntaxError].  The empty text is not
    JSON. *)
Class JSON (T : Type) := {
  JSON_stringify : T → string;
  JSON_parse : string → option T;
  JSON_parse_empty : JSON_parse "" = None;
}.

Definition parse_or_throw {T} `{!JSON T} (text : string) : M T :=
  match JSON_parse text with
  | Some v => ret v
  | None => throw SyntaxError
  end.

(** A string in a condition: only the empty string is falsy. *)
Definition truthy_string (s : string) : bool :=
  if decide (s = "") then false else true.

(** ** Domain calculations *)

(** The Total cell of a row of the line-items table:
    [item.quantity * item.unitPrice]. *)
Definition lineTotal (item : LineItem.t) : number :=
  (LineItem.quantity item * LineItem.unitPrice item)%float.

(** [Dashboard]'s
    [lineItems.reduce((acc, item) => acc + item.quantity * item.unitPrice, 0)]. *)
Definition calculateTotal (lineItems : list LineItem.t) : number :=
  fold_left
    (λ acc item, (acc + LineItem.quantity item * LineItem.unitPrice item)%float)
    lineItems 0%float.

(** [DocumentCreator]'s memoised [total]: the same reduction over the
    draft. *)
Definition total (lineItems : list LineItem.t) : number :=
  fold_left
    (λ acc item, (acc + LineItem.quantity item * LineItem.unitPrice item)%float)
    lineItems 0%float.

(** The sum of a sequence of numbers, taken from 0 in the order of the
    sequence: the meaning of "the sum over the sequence" for binary64
    numbers, whose addition is not associative. *)
Fixpoint sum_from (acc : number) (terms : list number) : number :=
  match terms with
  | [] => acc
  | x :: rest => sum_from (acc + x)%float rest
  end.
Definition sum_in_order (terms : list number) : number := sum_from 0%float terms.

(** ** The storage-backed state container *)

Section useLocalStorage.
Context {T : Type} `{!JSON T}.
(** The key, and the state cell [storedValue] of [App], where the hook is
    called, with its setter. *)
Variable key : string.
Variable storedValue : App → T.
Variable setStoredValue : T → App → App.

(** The initialiser given to [useState]: what the hook reads when it
    mounts. *)
Definition useLocalStorage_read (initialValue : T) : M T :=
  try_catch
    (let! item := localStorage_getItem key in
     match item with
     | Some text =>
         if truthy_string text then parse_or_throw text else ret initialValue
     | None => ret initialValue
     end)
    (λ error, console_error "" error ;; ret initialValue).

(** [setValue]: [value] is a new value or a function of the stored one.
    The [storedValue] of the closure is the one of the latest render: each
    handler below calls [setValue] once for a collection, and [App] renders
    again before the next handler runs. *)
Definition setValue (value : T + (T → T)) : M unit :=
  try_catch
    (let! s := get in
     let valueToStore :=
       match value with
       | inr f => f (storedValue (app s))
       | inl v => v
       end in
     modify (modify_app (setStoredValue valueToStore)) ;;
     localStorage_setItem key (JSON_stringify valueToStore))
    (λ error, console_error "" error).
End useLocalStorage.

(** ** App: the two collections and the view *)

Section Handlers.
Context `{!Builtins} `{!JSON (list Customer.t)} `{!JSON (list Document.t)}.

Definition setCustomers : list Customer.t + (list Customer.t → list Customer.t) → M unit :=
  setValue "gendocs_customers" customers with_customers.

Definition setDocuments : list Document.t + (list Document.t → list Document.t) → M unit :=
  setValue "gendocs_documents" documents with_documents.

Definition setActiveView (view : string) : M unit :=
  modify (modify_app (with_activeView view)).

(** What [App] holds when it mounts. *)
Definition App_mount : M unit :=
  let! cs := useLocalStorage_read "gendocs_customers" [] in
  let! ds := useLocalStorage_read "gendocs_documents" [] in
  modify (modify_app (λ _,
    {| activeView := "dashboard"; customers := cs; documents := ds |})).

(** ** CustomerManager *)

Definition setForm (n e a : string) : M unit :=
  modify (modify_form (λ _, {| name := n; email := e; address := a |})).

Definition handleSubmit : M unit :=
  let! s := get in
  let f := form s in
  if negb (truthy_string (name f)) || negb (truthy_string (email f)) then ret tt
  else
    let! now := Date_now in
    let newCustomer :=
      {| Customer.id := timestamp_toString now; Customer.name := name f;
         Customer.email := email f; Customer.address := address f |} in
    setCustomers (inr (λ prev, prev ++ [newCustomer])) ;;
    setForm "" "" "".

(** ** DocumentCreator *)

Definition setType (v : DocumentType) : M unit :=
  modify (modify_draft (with_type v)).
Definition setCustomerId (v : string) : M unit :=
  modify (modify_draft (with_customerId v)).
Definition setAiPrompt (v : string) : M unit :=
  modify (modify_draft (with_aiPrompt v)).
Definition setIsLoading (v : bool) : M unit :=
  modify (modify_draft (with_isLoading v)).
(** [setLineItems] with a value, or with a function of the latest value. *)
Definition setLineItems (value : list LineItem.t + (list LineItem.t → list LineItem.t)) : M unit :=
  modify (modify_draft (λ d,
    with_lineItems
      match value with
      | inr f => f (lineItems d)
      | inl v => v
      end d)).

(** The effect on [customers, customerId]. *)
Definition selectDefaultCustomer : M unit :=
  let! s := get in
  match customers (app s) with
  | first :: _ =>
      if truthy_string (customerId (draft s)) then ret tt
      else setCustomerId (Customer.id first)
  | [] => ret tt
  end.

Definition addLineItem : M unit :=
  let! now := Date_now in
  setLineItems (inr (λ prev, prev ++
    [{| LineItem.id := timestamp_toString now; LineItem.description := "";
        LineItem.quantity := 1%float; LineItem.unitPrice := 0%float |}])).

Definition removeLineItem (id : string) : M unit :=
  setLineItems (inr (λ prev,
    filter (λ item, LineItem.id item ≠ id) prev)).

(** [keyof Omit<LineItem, 'id'>], and the type [LineItem] gives to each
    field.  The three callers (the inputs of a row) pass a string for
    [description] and a number for [quantity] and [unitPrice]. *)
Inductive Field := description | quantity | unitPrice.

Definition field_type (field : Field) : Type :=
  match field with
  | description => string
  | quantity => number
  | unitPrice => number
  end.

(** [{...item, [field]: value}] *)
Definition set_field (field : Field) : field_type field → LineItem.t → LineItem.t :=
  match field with
  | description => λ value item,
      {| LineItem.id := LineItem.id item; LineItem.description := value;
         LineItem.quantity := LineItem.quantity item;
         LineItem.unitPrice := LineItem.unitPrice item |}
  | quantity => λ value item,
      {| LineItem.id := LineItem.id item;
         LineItem.description := LineItem.description item;
         LineItem.quantity := value;
         LineItem.unitPrice := LineItem.unitPrice item |}
  | unitPrice => λ value item,
      {| LineItem.id := LineItem.id item;
         LineItem.description := LineItem.description item;
         LineItem.quantity := LineItem.quantity item;
         LineItem.unitPrice := value |}
  end.

(** The function [updateLineItem] hands to [setLineItems]. *)
Definition updateLineItem_map (id : string) (field : Field)
    (value : field_type field) (prev : list LineItem.t) : list LineItem.t :=
  map (λ item,
         if decide (LineItem.id item = id) then set_field field value item
         else item)
      prev.

Definition updateLineItem (id : string) (field : Field)
    (value : field_type field) : M unit :=
  setLineItems (inr (updateLineItem_map id field value)).

Definition saveDocument : M unit :=
  let! s := get in
  let d := draft s in
  if negb (truthy_string (customerId d)) || (length (lineItems d) =? 0) then
    alert "Please select a customer and add at least one line item."
  else
    let! now := Date_now in
    let! today := Date_now in
    let newDoc :=
      {| Document.id := timestamp_toString now;
         Document.customerId := customerId d;
         Document.type := type d;
         Document.date := Date_toISOString today;
         Document.lineItems := lineItems d |} in
    setDocuments (inr (λ prev, prev ++ [newDoc])) ;;
    setActiveView "dashboard".

(** *** The AI draft generator *)

(** A value that [JSON.parse] returns. *)
Unset Elimination Schemes.
Inductive json :=
  | JNull
  | JBool (b : bool)
  | JNumber (n : number)
  | JString (s : string)
  | JArray (elements : list json)
  | JObject (members : list (string * json)).
Set Elimination Schemes.

Fixpoint member (key : string) (members : list (string * json)) : option json :=
  match members with
  | [] => None
  | (k, v) :: rest => if decide (k = key) then Some v else member key rest
  end.

(** [value.key] for a key no prototype defines, as [lineItems]: a
    [TypeError] on [null], the own property of an object, [undefined]
    ([None]) on the rest. *)
Definition get_property (value : json) (key : string) : M (option json) :=
  match value with
  | JNull => throw TypeError
  | JObject members => ret (member key members)
  | _ => ret None
  end.

(** A value in a condition. *)
Definition truthy (value : option json) : bool :=
  match value with
  | None | Some JNull => false
  | Some (JBool b) => b
  | Some (JNumber n) => negb (PrimFloat.eqb n 0 || PrimFloat.is_nan n)
  | Some (JString s) => truthy_string s
  | Some (JArray _) | Some (JObject _) => true
  end.

(** [value.map]: the elements to map over when [value] is an array; on
    anything else [map] is not a function. *)
Definition elements_to_map (value : option json) : M (list json) :=
  match value with
  | Some (JArray elements) => ret elements
  | _ => throw TypeError
  end.

Fixpoint Array_map {A B} (callback : A → M B) (elements : list A) : M (list B) :=
  match elements with
  | [] => ret []
  | x :: rest =>
      let! y := callback x in
      let! ys := Array_map callback rest in
      ret (y :: ys)
  end.

(** An element at the type the callback declares for it,
    [Omit<LineItem, 'id'>]: an object with a string [description] and
    numbers [quantity] and [unitPrice].  Members the type does not name are
    not seen at type [LineItem]. *)
Definition as_item (item : json) : option (string * number * number) :=
  match item with
  | JObject members =>
      match member "description" members, member "quantity" members,
            member "unitPrice" members with
      | Some (JString d), Some (JNumber q), Some (JNumber p) => Some (d, q, p)
      | _, _, _ => None
      end
  | _ => None
  end.

(** [item => ({...item, id: Date.now().toString() + Math.random()})] *)
Definition with_new_id (item : json) : M LineItem.t :=
  match as_item item with
  | Some (d, q, p) =>
      let! now := Date_now in
      let! r := Math_random in
      ret {| LineItem.id := timestamp_toString now +:+ Number_toString r;
             LineItem.description := d; LineItem.quantity := q;
             LineItem.unitPrice := p |}
  | None => ill_typed
  end.

Definition DocumentType_toString (t : DocumentType) : string :=
  match t with
  | Invoice => "Invoice"
  | Quotation => "Quotation"
  end.

Definition double_quote : string := String (Ascii.ascii_of_nat 34) "".

Definition fullPrompt (t : DocumentType) (prompt : string) : string :=
  "Generate a list of line items for a " +:+ DocumentType_toString t +:+
  " based on the following request: " +:+ double_quote +:+ prompt +:+
  double_quote +:+ ". Provide realistic quantities and prices.".

(** How the awaited [generateContent] ends: rejected, or resolved with a
    response whose [text] is given ([JSON.parse] reads an absent text as
    the string [undefined], which is not JSON). *)
Inductive ai_reply := Rejected | Resolved (text : string).

Definition await (reply : ai_reply) : M string :=
  match reply with
  | Rejected => throw RequestError
  | Resolved text => ret text
  end.

Context `{!JSON json}.

(** [handleGenerateWithAI] up to its [await]: answers whether a request was
    sent. *)
Definition handleGenerateWithAI_call : M bool :=
  let! s := get in
  if negb (truthy_string (aiPrompt (draft s))) then ret false
  else
    setIsLoading true ;;
    modify (modify_world (λ w,
      with_requests
        (requests w ++ [fullPrompt (type (draft s)) (aiPrompt (draft s))]) w)) ;;
    ret true.

(** [handleGenerateWithAI] from its [await] on. *)
Definition handleGenerateWithAI_resume (reply : ai_reply) : M unit :=
  try_finally
    (try_catch
       (let! text := await reply in
        let! result := parse_or_throw text in
        let! items := get_property result "lineItems" in
        if truthy items then
          let! elements := elements_to_map items in
          let! mapped := Array_map with_new_id elements in
          setLineItems (inl mapped)
        else ret tt)
       (λ error,
          console_error "Error generating content with AI:" error ;;
          alert "Sorry, there was an error generating the items. Please try again."))
    (setIsLoading false).

(** A click on Generate Items with the reply arriving before anything else
    happens. *)
Definition handleGenerateWithAI (reply : ai_reply) : M unit :=
  let! sent := handleGenerateWithAI_call in
  if sent : bool then handleGenerateWithAI_resume reply else ret tt.

(** *** Sequences of user actions on the document creator *)

Inductive Action :=
  | ChooseType (t : DocumentType)
  | ChooseCustomer (id : string)
  | TypePrompt (prompt : string)
  | RunEffect
  | ClickGenerate
  | ReplyArrives (reply : ai_reply)
  | ClickAddItem
  | ClickRemove (id : string)
  | Edit (id : string) (field : Field) (value : field_type field)
  | ClickSave.

Definition dispatch (a : Action) : M unit :=
  match a with
  | ChooseType t => setType t
  | ChooseCustomer id => setCustomerId id
  | TypePrompt prompt => setAiPrompt prompt
  | RunEffect => selectDefaultCustomer
  | ClickGenerate => handleGenerateWithAI_call ;; ret tt
  | ReplyArrives reply => handleGenerateWithAI_resume reply
  | ClickAddItem => addLineItem
  | ClickRemove id => removeLineItem id
  | Edit id field value => updateLineItem id field value
  | ClickSave => saveDocument
  end.

Fixpoint run (actions : list Action) : M unit :=
  match actions with
  | [] => ret tt
  | a :: rest => dispatch a ;; run rest
  end.

End Handlers.

(** ** Vocabulary of the properties *)

(** [item[field]] *)
Definition get_field (field : Field) : LineItem.t → field_type field :=
  match field with
  | description => LineItem.description
  | quantity => LineItem.quantity
  | unitPrice => LineItem.unitPrice
  end.

Definition save_message : string :=
  "Please select a customer and add at least one line item.".

Definition error_message : string :=
  "Sorry, there was an error generating the items. Please try again.".

(** [result.lineItems] where [result] is not [null]. *)
Definition lineItems_of (result : json) : option json :=
  match result with
  | JObject members => member "lineItems" members
  | _ => None
  end.

(** The response schema of the request: an object whose [lineItems] is an
    array of objects with a string [description] and numbers [quantity] and
    [unitPrice]. *)
Definition conforms (result : json) : bool :=
  match lineItems_of result with
  | Some (JArray elements) =>
      forallb (λ e, match as_item e with Some _ => true | None => false end)
        elements
  | _ => false
  end.

Section Vocabulary.
Context `{!Builtins} `{!JSON json}.

(** A failure of the call, as the specification lists them: the request
    fails, the response is not JSON, or it is JSON that violates the
    schema. *)
Definition failure (reply : ai_reply) : Prop :=
  match reply with
  | Rejected => True
  | Resolved text =>
      match JSON_parse text with
      | None => True
      | Some result => conforms result = false
      end
  end.

(** The failures that make the [try] block throw, with what it throws. *)
Inductive raises : ai_reply → exn → Prop :=
  | raises_rejected : raises Rejected RequestError
  | raises_unparseable text :
      JSON_parse text = None → raises (Resolved text) SyntaxError
  | raises_null text :
      JSON_parse text = Some JNull → raises (Resolved text) TypeError
  | raises_not_array text result v :
      JSON_parse text = Some result → lineItems_of result = Some v →
      truthy (Some v) = true → (∀ elements, v ≠ JArray elements) →
      raises (Resolved text) TypeError.

(** A response that parses to a value other than [null] whose [lineItems]
    is absent or falsy. *)
Inductive lacks_lineItems : ai_reply → Prop :=
  | lacks_lineItems_intro text result :
      JSON_parse text = Some result → result ≠ JNull →
      truthy (lineItems_of result) = false → lacks_lineItems (Resolved text).

(** From [s], the run [r] reported the error to the user, kept the draft's
    line items and cleared the loading flag. *)
Definition reports_error (s : State) (r : completion unit * State) : Prop :=
  r.1 = Normal tt ∧
  alerts (world r.2) = alerts (world s) ++ [error_message] ∧
  lineItems (draft r.2) = lineItems (draft s) ∧
  isLoading (draft r.2) = false.

(** The same without a report. *)
Definition stays_silent (s : State) (r : completion unit * State) : Prop :=
  r.1 = Normal tt ∧
  alerts (world r.2) = alerts (world s) ∧
  lineItems (draft r.2) = lineItems (draft s) ∧
  isLoading (draft r.2) = false.

(** The line items the callback builds from [records] when the clock and the
    generator were read [c] and [r] times before. *)
Fixpoint stamped (clock : nat → Z) (random : nat → number) (c r : nat)
    (records : list (string * number * number)) : list LineItem.t :=
  match records with
  | [] => []
  | (d, q, p) :: rest =>
      {| LineItem.id :=
           timestamp_toString (clock c) +:+ Number_toString (random r);
         LineItem.description := d; LineItem.quantity := q;
         LineItem.unitPrice := p |}
      :: stamped clock random (S c) (S r) rest
  end.

(** From [s], the run [r] replaced the draft's line items by [records], in
    order, the [i]-th with the identifier made of the [i]-th next readings of
    the clock and of the generator, and cleared the loading flag. *)
Definition replaces_lineItems (records : list (string * number * number))
    (s : State) (r : completion unit * State) : Prop :=
  let w := world s in
  let items := lineItems (draft r.2) in
  r.1 = Normal tt ∧
  map (λ item, (LineItem.description item, LineItem.quantity item,
                LineItem.unitPrice item)) items = records ∧
  (∀ i item, items !! i = Some item →
     LineItem.id item =
       timestamp_toString (clock w (clock_reads w + i)) +:+
       Number_toString (random w (random_reads w + i))) ∧
  isLoading (draft r.2) = false ∧
  alerts (world r.2) = alerts w.

(** The next [n] draws print differently, beside timestamps of one width. *)
Definition distinct_draws (n : nat) (w : World) : Prop :=
  ∀ i j, i < j < n →
    String.length (timestamp_toString (clock w (clock_reads w + i))) =
    String.length (timestamp_toString (clock w (clock_reads w + j))) ∧
    Number_toString (random w (random_reads w + i)) ≠
    Number_toString (random w (random_reads w + j)).

End Vocabulary.

(** ** The library functions, to run examples

    Executable versions of the library functions the handlers call, exact
    on the inputs described with each. *)

Fixpoint zeros (n : nat) : string :=
  match n with
  | O => ""
  | S n => "0" +:+ zeros n
  end.

Definition pad_left (width : nat) (s : string) : string :=
  zeros (width - String.length s) +:+ s.

Fixpoint strip_zeros (fuel : nat) (digits k : Z) : Z * Z :=
  match fuel with
  | O => (digits, k)
  | S fuel =>
      if ((0 <? k) && (digits mod 10 =? 0))%Z
      then strip_zeros fuel (digits / 10)%Z (k - 1)%Z
      else (digits, k)
  end.

(** [digits / 10 ^ k] in positional notation. *)
Definition decimal (negative : bool) (digits k : Z) : string :=
  (if negative then "-" else "") +:+
  pretty (digits / 10 ^ k)%Z +:+
  (if (k =? 0)%Z then ""
   else "." +:+ pad_left (Z.to_nat k) (pretty (digits mod 10 ^ k)%Z)).

(** The exact decimal expansion of a number.  It is what [ToString] prints
    for a number between 1e-6 and 1e21 whose expansion has at most 15
    significant digits. *)
Definition exact_toString (x : number) : string :=
  match Prim2SF x with
  | S754_zero _ => "0"
  | S754_infinity false => "Infinity"
  | S754_infinity true => "-Infinity"
  | S754_nan => "NaN"
  | S754_finite negative m e =>
      let '(digits, k) :=
        if (0 <=? e)%Z then (Z.pos m * 2 ^ e, 0)%Z
        else strip_zeros (Z.to_nat (- e)) (Z.pos m * 5 ^ (- e))%Z (- e)%Z in
      decimal negative digits k
  end.

(** [toISOString] for the years 0000 to 9999: days to a civil date, the rest
    of the day to a time. *)
Definition civil_toISOString (ms : Z) : string :=
  (let days := ms / 86400000 in
   let rest := ms mod 86400000 in
   let z := days + 719468 in
   let era := z / 146097 in
   let doe := z - era * 146097 in
   let yoe := (doe - doe / 1460 + doe / 36524 - doe / 146096) / 365 in
   let doy := doe - (365 * yoe + yoe / 4 - yoe / 100) in
   let mp := (5 * doy + 2) / 153 in
   let d := doy - (153 * mp + 2) / 5 + 1 in
   let m := if mp <? 10 then mp + 3 else mp - 9 in
   let y := yoe + era * 400 + (if m <=? 2 then 1 else 0) in
   pad_left 4 (pretty y) +:+ "-" +:+ pad_left 2 (pretty m) +:+ "-" +:+
   pad_left 2 (pretty d) +:+ "T" +:+
   pad_left 2 (pretty (rest / 3600000)) +:+ ":" +:+
   pad_left 2 (pretty (rest / 60000 mod 60)) +:+ ":" +:+
   pad_left 2 (pretty (rest / 1000 mod 60)) +:+ "." +:+
   pad_left 3 (pretty (rest mod 1000)) +:+ "Z")%Z.

Definition browser_builtins : Builtins :=
  {| Number_toString := exact_toString;
     Date_toISOString := civil_toISOString |}.

(** *** Reading JSON *)

Definition quote_char : ascii := ascii_of_nat 34.
Definition backslash_char : ascii := ascii_of_nat 92.

Definition is_digit (c : ascii) : bool :=
  (48 <=? nat_of_ascii c) && (nat_of_ascii c <=? 57).

Definition is_space (c : ascii) : bool :=
  let n := nat_of_ascii c in
  (n =? 32) || (n =? 10) || (n =? 13) || (n =? 9).

Fixpoint skip_space (s : string) : string :=
  match s with
  | String c rest => if is_space c then skip_space rest else s
  | EmptyString => s
  end.

(** The leading digits of [s] appended to [acc], and how many there were. *)
Fixpoint read_digits (s : string) (acc count : Z) : Z * Z * string :=
  match s with
  | String c rest =>
      if is_digit c
      then read_digits rest (10 * acc + Z.of_nat (nat_of_ascii c - 48))%Z
             (count + 1)%Z
      else (acc, count, s)
  | EmptyString => (acc, count, s)
  end.

(** The character a one-letter escape stands for. *)
Definition unescape (c : ascii) : option ascii :=
  let n := nat_of_ascii c in
  if (n =? 34) || (n =? 92) || (n =? 47) then Some c
  else if n =? 98 then Some (ascii_of_nat 8)
  else if n =? 102 then Some (ascii_of_nat 12)
  else if n =? 110 then Some (ascii_of_nat 10)
  else if n =? 114 then Some (ascii_of_nat 13)
  else if n =? 116 then Some (ascii_of_nat 9)
  else None.

Definition hex_value (c : ascii) : option nat :=
  let n := nat_of_ascii c in
  if (48 <=? n) && (n <=? 57) then Some (n - 48)
  else if (97 <=? n) && (n <=? 102) then Some (n - 87)
  else if (65 <=? n) && (n <=? 70) then Some (n - 55)
  else None.

(** The character of a [\u] escape; strings here hold characters below 256
    only, and an escape for another one is not read. *)
Definition unescape_unicode (h1 h2 h3 h4 : ascii) : option ascii :=
  match hex_value h1, hex_value h2, hex_value h3, hex_value h4 with
  | Some a, Some b, Some c, Some d =>
      if (a =? 0) && (b =? 0) then Some (ascii_of_nat (16 * c + d)) else None
  | _, _, _, _ => None
  end.

(** A string literal from after its opening quote. *)
Fixpoint read_string (s : string) : option (string * string) :=
  match s with
  | EmptyString => None
  | String c rest =>
      if Ascii.eqb c quote_char then Some ("", rest)
      else if Ascii.eqb c backslash_char then
        match rest with
        | String "u" (String h1 (String h2 (String h3 (String h4 rest')))) =>
            match unescape_unicode h1 h2 h3 h4, read_string rest' with
            | Some c', Some (body, after) => Some (String c' body, after)
            | _, _ => None
            end
        | String e rest' =>
            match unescape e, read_string rest' with
            | Some c', Some (body, after) => Some (String c' body, after)
            | _, _ => None
            end
        | EmptyString => None
        end
      else if nat_of_ascii c <? 32 then None
      else
        match read_string rest with
        | Some (body, after) => Some (String c body, after)
        | None => None
        end
  end.

Definition Z_to_number (z : Z) : number := PrimFloat.of_uint63 (Uint63.of_Z z).

(** A number literal: digits with an optional fraction.  Exponents are not
    read, nor literals of more than 15 digits, for which a single division
    would not round the way JavaScript does. *)
Definition read_number (s : string) : option (number * string) :=
  let '(negative, s1) :=
    match s with
    | String "-" rest => (true, rest)
    | _ => (false, s)
    end in
  let '(int, n, s2) := read_digits s1 0%Z 0%Z in
  let leading_zero :=
    match s1 with
    | String "0" _ => (1 <? n)%Z
    | _ => false
    end in
  let '(has_point, (all, k, s3)) :=
    match s2 with
    | String "." rest => (true, read_digits rest int 0%Z)
    | _ => (false, (int, 0%Z, s2))
    end in
  let exponent :=
    match s3 with
    | String "e" _ | String "E" _ => true
    | _ => false
    end in
  if (n =? 0)%Z || leading_zero || exponent || (has_point && (k =? 0)%Z)
     || (15 <? n + k)%Z
  then None
  else
    let magnitude :=
      if (k =? 0)%Z then Z_to_number all
      else (Z_to_number all / Z_to_number (10 ^ k))%float in
    Some (if negative then (- magnitude)%float else magnitude, s3).

(** Of two members of one name the later wins. *)
Definition add_member (key : string) (value : json)
    (later : list (string * json)) : list (string * json) :=
  match member key later with
  | Some _ => later
  | None => (key, value) :: later
  end.

Fixpoint read_value (fuel : nat) (s : string) : option (json * string) :=
  match fuel with
  | O => None
  | S fuel =>
      match skip_space s with
      | String "n" (String "u" (String "l" (String "l" rest))) =>
          Some (JNull, rest)
      | String "t" (String "r" (String "u" (String "e" rest))) =>
          Some (JBool true, rest)
      | String "f" (String "a" (String "l" (String "s" (String "e" rest)))) =>
          Some (JBool false, rest)
      | String "[" rest =>
          match skip_space rest with
          | String "]" after => Some (JArray [], after)
          | _ =>
              match read_elements fuel rest with
              | Some (elements, after) => Some (JArray elements, after)
              | None => None
              end
          end
      | String "{" rest =>
          match skip_space rest with
          | String "}" after => Some (JObject [], after)
          | _ =>
              match read_members fuel rest with
              | Some (members, after) => Some (JObject members, after)
              | None => None
              end
          end
      | String c rest as other =>
          if Ascii.eqb c quote_char then
            match read_string rest with
            | Some (body, after) => Some (JString body, after)
            | None => None
            end
          else
            match read_number other with
            | Some (n, after) => Some (JNumber n, after)
            | None => None
            end
      | EmptyString => None
      end
  end
with read_elements (fuel : nat) (s : string) : option (list json * string) :=
  match fuel with
  | O => None
  | S fuel =>
      match read_value fuel s with
      | Some (first, after) =>
          match skip_space after with
          | String "," rest =>
              match read_elements fuel rest with
              | Some (others, after') => Some (first :: others, after')
              | None => None
              end
          | String "]" rest => Some ([first], rest)
          | _ => None
          end
      | None => None
      end
  end
with read_members (fuel : nat) (s : string)
    : option (list (string * json) * string) :=
  match fuel with
  | O => None
  | S fuel =>
      match skip_space s with
      | String c rest =>
          if Ascii.eqb c quote_char then
            match read_string rest with
            | Some (key, after_key) =>
                match skip_space after_key with
                | String ":" rest' =>
                    match read_value fuel rest' with
                    | Some (value, after) =>
                        match skip_space after with
                        | String "," rest'' =>
                            match read_members fuel rest'' with
                            | Some (later, after') =>
                                Some (add_member key value later, after')
                            | None => None
                            end
                        | String "}" rest'' => Some ([(key, value)], rest'')
                        | _ => None
                        end
                    | None => None
                    end
                | _ => None
                end
            | None => None
            end
          else None
      | EmptyString => None
      end
  end.

(** One value and nothing after it. *)
Definition read_json (text : string) : option json :=
  match read_value (S (2 * String.length text)) text with
  | Some (value, after) =>
      match skip_space after with
      | EmptyString => Some value
      | _ => None
      end
  | None => None
  end.

(** *** Writing JSON *)

Definition hex_digit (n : nat) : ascii :=
  if n <? 10 then ascii_of_nat (48 + n) else ascii_of_nat (87 + n).

(** How [JSON.stringify] writes one character of a string. *)
Definition escape_char (c : ascii) : string :=
  let n := nat_of_ascii c in
  if (n =? 34) || (n =? 92) then String backslash_char (String c "")
  else if n =? 8 then String backslash_char "b"
  else if n =? 12 then String backslash_char "f"
  else if n =? 10 then String backslash_char "n"
  else if n =? 13 then String backslash_char "r"
  else if n =? 9 then String backslash_char "t"
  else if n <? 32 then
    String backslash_char
      (String "u" (String "0" (String "0"
         (String (hex_digit (n / 16)) (String (hex_digit (n mod 16)) "")))))
  else String c "".

Fixpoint escape (s : string) : string :=
  match s with
  | EmptyString => ""
  | String c rest => escape_char c +:+ escape rest
  end.

Definition print_string (s : string) : string :=
  String quote_char (escape s) +:+ String quote_char "".

(** [JSON.stringify] writes [null] for a number that is not finite. *)
Definition print_number (x : number) : string :=
  match Prim2SF x with
  | S754_infinity _ | S754_nan => "null"
  | _ => exact_toString x
  end.

Fixpoint join_with_commas {A} (print : A → string) (l : list A) : string :=
  match l with
  | [] => ""
  | x :: rest =>
      print x +:+
      match rest with
      | [] => ""
      | _ :: _ => "," +:+ join_with_commas print rest
      end
  end.

Fixpoint print_json (v : json) : string :=
  match v with
  | JNull => "null"
  | JBool true => "true"
  | JBool false => "false"
  | JNumber n => print_number n
  | JString s => print_string s
  | JArray elements => "[" +:+ join_with_commas print_json elements +:+ "]"
  | JObject members =>
      "{" +:+
      join_with_commas
        (λ member, print_string member.1 +:+ ":" +:+ print_json member.2)
        members +:+ "}"
  end.

(** *** The stored collections as JSON values *)

Definition customer_to_json (c : Customer.t) : json :=
  JObject [("id", JString (Customer.id c)); ("name", JString (Customer.name c));
           ("email", JString (Customer.email c));
           ("address", JString (Customer.address c))].

Definition customer_of_json (v : json) : option Customer.t :=
  match v with
  | JObject members =>
      match member "id" members, member "name" members,
            member "email" members, member "address" members with
      | Some (JString i), Some (JString n), Some (JString e), Some (JString a) =>
          Some (Customer.mk i n e a)
      | _, _, _, _ => None
      end
  | _ => None
  end.

Definition lineItem_to_json (item : LineItem.t) : json :=
  JObject [("id", JString (LineItem.id item));
           ("description", JString (LineItem.description item));
           ("quantity", JNumber (LineItem.quantity item));
           ("unitPrice", JNumber (LineItem.unitPrice item))].

Definition lineItem_of_json (v : json) : option LineItem.t :=
  match v with
  | JObject members =>
      match member "id" members, as_item v with
      | Some (JString i), Some (d, q, p) => Some (LineItem.mk i d q p)
      | _, _ => None
      end
  | _ => None
  end.

Definition document_to_json (doc : Document.t) : json :=
  JObject [("id", JString (Document.id doc));
           ("customerId", JString (Document.customerId doc));
           ("type", JString (DocumentType_toString (Document.type doc)));
           ("date", JString (Document.date doc));
           ("lineItems", JArray (map lineItem_to_json (Document.lineItems doc)))].

Definition DocumentType_of_string (s : string) : option DocumentType :=
  if decide (s = "Invoice") then Some Invoice
  else if decide (s = "Quotation") then Some Quotation
  else None.

Definition document_of_json (v : json) : option Document.t :=
  match v with
  | JObject members =>
      match member "id" members, member "customerId" members,
            member "type" members, member "date" members,
            member "lineItems" members with
      | Some (JString i), Some (JString c), Some (JString t), Some (JString d),
        Some (JArray items) =>
          match DocumentType_of_string t, mapM lineItem_of_json items with
          | Some t', Some items' => Some (Document.mk i c t' d items')
          | _, _ => None
          end
      | _, _, _, _, _ => None
      end
  | _ => None
  end.

Definition array_of_json {A} (element : json → option A) (v : json)
    : option (list A) :=
  match v with
  | JArray elements => mapM element elements
  | _ => None
  end.

Definition read_as {A} (decode : json → option A) (text : string) : option A :=
  match read_json text with
  | Some v => decode v
  | None => None
  end.

Definition browser_JSON : JSON json :=
  {| JSON_stringify := print_json;
     JSON_parse := read_json;
     JSON_parse_empty := eq_refl |}.

Definition customers_JSON : JSON (list Customer.t) :=
  {| JSON_stringify := λ v, print_json (JArray (map customer_to_json v));
     JSON_parse := read_as (array_of_json customer_of_json);
     JSON_parse_empty := eq_refl |}.

Definition documents_JSON : JSON (list Document.t) :=
  {| JSON_stringify := λ v, print_json (JArray (map document_to_json v));
     JSON_parse := read_as (array_of_json document_of_json);
     JSON_parse_empty := eq_refl |}.

(** *** Pages to run examples on *)

(** A browser with empty storage where nothing was called yet. *)
Definition browser (quota : nat) (clock : nat → Z) (random : nat → number)
    : World :=
  {| localStorage := {| entries := ∅; quota := quota |};
     clock := clock; clock_reads := 0;
     random := random; random_reads := 0;
     alerts := []; console := []; requests := [] |}.

(** The application as it starts on empty storage. *)
Definition page (w : World) : State :=
  {| app := {| activeView := "dashboard"; customers := []; documents := [] |};
     form := {| name := ""; email := ""; address := "" |};
     draft := {| type := Invoice; customerId := ""; lineItems := [];
                 aiPrompt := ""; isLoading := false |};
     world := w |}.

(** A clock that stands at one millisecond, and one that advances by one
    millisecond at each reading. *)
Definition still_clock (n : nat) : Z := 1700000000000.
Definition ticking_clock (n : nat) : Z := 1700000000000 + Z.of_nat n.

(** A generator that repeats itself, and one that does not. *)
Definition stuck_random (n : nat) : number := 0.5%float.
Definition varying_random (n : nat) : number :=
  Z_to_number (2 * Z.of_nat n + 1) / Z_to_number (2 ^ (Z.of_nat n + 2)).

Definition ada : Customer.t :=
  Customer.mk "1700000000000" "Ada" "ada@example.com" "12 Analytical Row".

(** The creator opened for Ada, the only customer. *)
Definition page_for_ada (w : World) : State :=
  modify_app (with_customers [ada]) (page w).

(** The response of the specification's example:
    [{"lineItems":[{"description":"Design","quantity":10,"unitPrice":50},
    {"description":"Hosting","quantity":1,"unitPrice":120}]}] *)
Definition design_and_hosting : json :=
  JObject [("lineItems", JArray [
    JObject [("description", JString "Design"); ("quantity", JNumber 10);
             ("unitPrice", JNumber 50)];
    JObject [("description", JString "Hosting"); ("quantity", JNumber 1);
             ("unitPrice", JNumber 120)]])].

(** The state just after a request was sent from [s]. *)
Definition after_call (s : State) : State :=
  modify_world (λ w,
    with_requests
      (requests w ++ [fullPrompt (type (draft s)) (aiPrompt (draft s))]) w)
    (modify_draft (with_isLoading true) s).

(** The state after the handler caught [e] in [s]. *)
Definition after_error (e : exn) (s : State) : State :=
  modify_draft (with_isLoading false)
    (modify_world (λ w, with_alerts (alerts w ++ [error_message]) w)
       (modify_world (λ w, with_console
          (console w ++ [("Error generating content with AI:", e)]) w) s)).

(** The state after [n] more readings of the clock and of the generator. *)
Definition after_reads (n : nat) (s : State) : State :=
  modify_world (λ w, with_random_reads (n + random_reads w)
                       (with_clock_reads (n + clock_reads w) w)) s.

(** *** Runs in that browser *)

Section Examples.
#[local] Existing Instances browser_builtins browser_JSON customers_JSON
  documents_JSON.

Definition usual_browser : World := browser 5000 ticking_clock varying_random.

(** The customer form, filled in and not. *)
Definition form_for_ada : State :=
  modify_form
    (λ _, {| name := "Ada"; email := "ada@example.com";
             address := "12 Analytical Row" |})
    (page usual_browser).
Definition form_without_name : State :=
  modify_form (λ _, {| name := ""; email := "a@b.com"; address := "" |})
    (page usual_browser).

(** The draft of the specification's example: customer c1 and one line, X,
    1 at 100. *)
Definition draft_for_c1 : State :=
  exec (run [ChooseCustomer "c1"; ClickAddItem;
             Edit "1700000000000" description "X";
             Edit "1700000000000" unitPrice 100%float])
    (page usual_browser).

(** A draft for Ada with one line and a prompt typed. *)
Definition draft_with_prompt : State :=
  exec (run [RunEffect; ClickAddItem; TypePrompt "a website"])
    (page_for_ada usual_browser).

(** The same in a browser whose clock stands still and whose generator
    repeats itself. *)
Definition draft_in_stuck_browser : State :=
  exec (run [RunEffect; TypePrompt "a website"])
    (page_for_ada (browser 5000 still_clock stuck_random)).

(** Two clicks on Add Item within one millisecond, then Save. *)
Definition two_quick_items_saved : State :=
  exec (run [RunEffect; ClickAddItem; ClickAddItem; ClickSave])
    (page_for_ada (browser 5000 still_clock stuck_random)).

(** A page whose store holds a text that is not JSON under the customers'
    key, and a page whose store takes ten characters at most. *)
Definition page_with_garbage : State :=
  page
    {| localStorage :=
         {| entries := {["gendocs_customers" := "[{oops"]}; quota := 5000 |};
       clock := ticking_clock; clock_reads := 0;
       random := varying_random; random_reads := 0;
       alerts := []; console := []; requests := [] |}.
Definition page_with_full_store : State :=
  page (browser 10 ticking_clock varying_random).

(** The customers written from those pages. *)
Definition ada_written : State :=
  exec (setCustomers (inl [ada])) (page usual_browser).
Definition ada_written_to_full_store : State :=
  exec (setCustomers (inl [ada])) page_with_full_store.

(** The hook of the customers read on a page. *)
Definition read_customers (s : State) : completion (list Customer.t) :=
  outcome (useLocalStorage_read "gendocs_customers" []) s.

(** The handlers of the generator in that browser. *)
Definition resume_in_browser : ai_reply → M unit := handleGenerateWithAI_resume.
Definition generate_in_browser : ai_reply → M unit := handleGenerateWithAI.

End Examples.

(** ** Dashboard *)

(** [customers.find(c => c.id === id)?.name || "Unknown"] *)
Definition getCustomerName (customers : list Customer.t) (id : string) : string :=
  match List.find (λ c, bool_decide (Customer.id c = id)) customers with
  | Some c =>
      if truthy_string (Customer.name c) then Customer.name c else "Unknown"
  | None => "Unknown"
  end.

(** [d.type === t] *)
Definition has_type (t : DocumentType) (d : Document.t) : bool :=
  match Document.type d, t with
  | Invoice, Invoice | Quotation, Quotation => true
  | _, _ => false
  end.

(** [documents.filter(d => d.type === 'Invoice')] and its twin. *)
Definition invoices (documents : list Document.t) : list Document.t :=
  List.filter (has_type Invoice) documents.
Definition quotations (documents : list Document.t) : list Document.t :=
  List.filter (has_type Quotation) documents.

(** ** The inputs of a row *)

(** [x || 0] on a number: 0, -0 and NaN are falsy. *)
Definition or_zero (x : number) : number :=
  if PrimFloat.eqb x 0 || PrimFloat.is_nan x then 0%float else x.

Section Inputs.
(** [parseFloat], whose reading of a text is not computed here. *)
Variable parseFloat : string → number.

Definition description_onChange (id value : string) : M unit :=
  updateLineItem id description value.
Definition quantity_onChange (id value : string) : M unit :=
  updateLineItem id quantity (or_zero (parseFloat value)).
Definition unitPrice_onChange (id value : string) : M unit :=
  updateLineItem id unitPrice (or_zero (parseFloat value)).
End Inputs.

(** ** More vocabulary *)

(** The line that [addLineItem] appends at a reading of the clock. *)
Definition new_item (ms : Z) : LineItem.t :=
  {| LineItem.id := timestamp_toString ms; LineItem.description := "";
     LineItem.quantity := 1%float; LineItem.unitPrice := 0%float |}.



(** *** More runs in that browser *)

Section MoreExamples.
#[local] Existing Instances browser_builtins browser_JSON customers_JSON
  documents_JSON.

(** [parseFloat] on the texts of the examples: a decimal literal gives its
    number, a text that starts no number gives NaN. *)
Definition literal_parseFloat (text : string) : number :=
  match read_number text with
  | Some (x, _) => x
  | None => PrimFloat.nan
  end.

(** A customer saved without a name is not possible through the form; one
    may still be in the store. *)
Definition nameless : Customer.t := Customer.mk "1700000000007" "" "n@example.com" "".

(** An invoice and a quotation for Ada. *)
Definition ada_invoice : Document.t :=
  Document.mk "1700000000100" "1700000000000" Invoice "2023-11-14T22:13:20.100Z"
    [LineItem.mk "a" "Design" 10%float 50%float].
Definition ada_quotation : Document.t :=
  Document.mk "1700000000200" "1700000000000" Quotation
    "2023-11-14T22:13:20.200Z"
    [LineItem.mk "b" "Hosting" 1%float 120%float].

(** The draft for c1 after Save, and the page loaded again on its store. *)
Definition c1_saved : State := exec saveDocument draft_for_c1.
Definition c1_reloaded : State :=
  exec App_mount (page (world c1_saved)).

(** Ada's form after Add Customer, and the page loaded again on its
    store. *)
Definition ada_added : State := exec handleSubmit form_for_ada.
Definition ada_reloaded : State := exec App_mount (page (world ada_added)).


End MoreExamples.

(** * Properties *)

Ltac js_step :=
  cbv beta iota zeta delta
    [bind ret get modify throw ill_typed try_catch try_finally exec outcome
     alert console_error Date_now Math_random localStorage_getItem
     localStorage_setItem parse_or_throw await fst snd].

Lemma truthy_string_true s : truthy_string s = true ↔ s ≠ "".
Proof. unfold truthy_string. case_decide; split; congruence. Qed.

Lemma truthy_string_false s : truthy_string s = false ↔ s = "".
Proof. unfold truthy_string. case_decide; split; congruence. Qed.

Lemma timestamp_toString_inj t1 t2 :
  timestamp_toString t1 = timestamp_toString t2 → t1 = t2.
Proof. apply pretty_Z_inj. Qed.

(** ** Totals *)

Lemma fold_sum_from (l : list LineItem.t) (acc : number) :
  fold_left
    (λ acc item, (acc + LineItem.quantity item * LineItem.unitPrice item)%float)
    l acc
  = sum_from acc (map lineTotal l).
Proof.
  revert acc. induction l as [|item l IH]; intros acc; simpl; [done|].
  by rewrite IH.
Qed.

(** C1: the line total of an item is its quantity times its unit price; the
    total the dashboard shows for a document, and the total of the draft in
    the creator, are the sum of quantity times unit price over the line
    items, taken in order from 0, and 0 for no line item.  Quantities and
    prices are any binary64 numbers, zero and fractions included. *)
Theorem totals_are_sums_in_order :
  (∀ item,
     lineTotal item = (LineItem.quantity item * LineItem.unitPrice item)%float) ∧
  (∀ doc,
     calculateTotal (Document.lineItems doc) =
     sum_in_order
       (map (λ item, (LineItem.quantity item * LineItem.unitPrice item)%float)
          (Document.lineItems doc))) ∧
  (∀ items,
     total items =
     sum_in_order
       (map (λ item, (LineItem.quantity item * LineItem.unitPrice item)%float)
          items)) ∧
  calculateTotal [] = 0%float ∧ total [] = 0%float.
Proof.
  repeat split; try done.
  - intros doc. unfold calculateTotal, sum_in_order. apply fold_sum_from.
  - intros items. unfold total, sum_in_order. apply fold_sum_from.
Qed.

(** The examples of the specification: 2.5 units at 10 make 25, nothing at
    any price makes 0, and a document of two lines. *)
Example lineTotal_fraction :
  lineTotal (LineItem.mk "a" "" 2.5%float 10%float) = 25%float.
Proof. reflexivity. Qed.

Example lineTotal_zero_quantity :
  lineTotal (LineItem.mk "a" "" 0%float 99.5%float) = 0%float.
Proof. reflexivity. Qed.

Example calculateTotal_two_lines :
  calculateTotal [LineItem.mk "a" "Design" 10%float 50%float;
                  LineItem.mk "b" "Hosting" 1%float 120%float] = 620%float.
Proof. reflexivity. Qed.

(** Why the order is part of the sum: a tenth, two tenths and three tenths
    add up differently from left to right and from right to left. *)
Example sum_depends_on_order :
  sum_in_order [(1 / 10)%float; (2 / 10)%float; (3 / 10)%float] ≠
  sum_in_order [(3 / 10)%float; (2 / 10)%float; (1 / 10)%float].
Proof. vm_compute. discriminate. Qed.

(** ** Editing a line *)

Lemma set_field_id field value item :
  LineItem.id (set_field field value item) = LineItem.id item.
Proof. by destruct field. Qed.

Lemma get_set_field field value item :
  get_field field (set_field field value item) = value.
Proof. by destruct field. Qed.

Lemma get_set_field_other field other value item :
  other ≠ field →
  get_field other (set_field field value item) = get_field other item.
Proof. by destruct field, other. Qed.

(** C8: [updateLineItem id field value] keeps the length and the order of
    the draft's line items; an item whose identifier is not [id] is kept as
    it is; an item whose identifier is [id] keeps its identifier and its
    other fields and has [value] in the named field.  Nothing else of the
    state changes. *)
Theorem updateLineItem_frame (id : string) (field : Field)
    (value : field_type field) (s : State) :
  let prev := lineItems (draft s) in
  let s' := exec (updateLineItem id field value) s in
  let next := lineItems (draft s') in
  outcome (updateLineItem id field value) s = Normal tt ∧
  app s' = app s ∧ form s' = form s ∧ world s' = world s ∧
  length next = length prev ∧
  ∀ i item, prev !! i = Some item →
    ∃ item', next !! i = Some item' ∧
      LineItem.id item' = LineItem.id item ∧
      (LineItem.id item ≠ id → item' = item) ∧
      (LineItem.id item = id →
         get_field field item' = value ∧
         ∀ other, other ≠ field → get_field other item' = get_field other item).
Proof.
  simpl. repeat split.
  - unfold updateLineItem_map. by rewrite length_map.
  - intros i item Hi. unfold updateLineItem_map.
    eexists. split; [by rewrite list_lookup_fmap, Hi|].
    case_decide as Hid; [|done].
    split; [apply set_field_id|]. split; [done|]. intros _.
    split; [apply get_set_field|]. intros other Ho.
    by apply get_set_field_other.
Qed.

(** ** The storage container *)

Section Container.
Context {T : Type} `{!JSON T}.

(** What [setValue] does: the cell takes the new value whatever happens to
    the store; a full store costs a line on the console. *)
Lemma setValue_run key (cell : App → T) (setCell : T → App → App)
    (value : T + (T → T)) (s : State) :
  setValue key cell setCell value s =
    let v :=
      match value with
      | inr f => f (cell (app s))
      | inl v => v
      end in
    let s1 := modify_app (setCell v) s in
    (Normal tt,
     match Storage_setItem key (JSON_stringify v) (localStorage (world s)) with
     | Some store => modify_world (with_localStorage store) s1
     | None =>
         modify_world
           (λ w, with_console (console w ++ [("", QuotaExceededError)]) w) s1
     end).
Proof.
  unfold setValue. js_step. simpl.
  destruct (Storage_setItem _ _ _); reflexivity.
Qed.

(** What the read does: it logs a text that does not parse and falls back. *)
Lemma useLocalStorage_read_run (key : string) (initialValue : T) (s : State) :
  useLocalStorage_read key initialValue s =
    match Storage_getItem key (localStorage (world s)) with
    | Some text =>
        if truthy_string text then
          match JSON_parse text with
          | Some v => (Normal v, s)
          | None =>
              (Normal initialValue,
               modify_world
                 (λ w, with_console (console w ++ [("", SyntaxError)]) w) s)
          end
        else (Normal initialValue, s)
    | None => (Normal initialValue, s)
    end.
Proof.
  unfold useLocalStorage_read. js_step.
  destruct (Storage_getItem key _) as [text|]; [|done].
  destruct (truthy_string text); [|done].
  by destruct (JSON_parse text).
Qed.

(** An accepted write leaves the text of the value under the key. *)
Lemma setValue_stores key (cell : App → T) (setCell : T → App → App)
    (value : T + (T → T)) (s : State) :
  let v :=
    match value with
    | inr f => f (cell (app s))
    | inl v => v
    end in
  usage (<[key := JSON_stringify v]> (entries (localStorage (world s))))
    ≤ quota (localStorage (world s)) →
  Storage_getItem key
    (localStorage (world (exec (setValue key cell setCell value) s)))
  = Some (JSON_stringify v).
Proof.
  intros v Hfit. unfold exec. rewrite setValue_run. fold v.
  unfold Storage_setItem. simpl. rewrite decide_True by done. simpl.
  unfold Storage_getItem. simpl. apply lookup_insert_eq.
Qed.

Lemma stringify_not_empty (v : T) :
  JSON_parse (JSON_stringify v) = Some v → truthy_string (JSON_stringify v) = true.
Proof.
  intros Hrt. apply truthy_string_true. intros Hempty.
  rewrite Hempty, JSON_parse_empty in Hrt. discriminate.
Qed.

(** C6: the read of the hook answers the parsed stored value when the key
    holds a text that parses, and [initialValue] when the key is absent or
    holds a text that does not parse; it always answers, never throws. *)
Theorem useLocalStorage_read_falls_back (key : string) (initialValue : T)
    (s : State) :
  let stored := Storage_getItem key (localStorage (world s)) in
  let result := outcome (useLocalStorage_read key initialValue) s in
  (∀ text v,
     stored = Some text → JSON_parse text = Some v → result = Normal v) ∧
  (stored = None → result = Normal initialValue) ∧
  (∀ text,
     stored = Some text → JSON_parse text = None →
     result = Normal initialValue) ∧
  (∃ v, result = Normal v).
Proof.
  unfold outcome. rewrite useLocalStorage_read_run.
  destruct (Storage_getItem key _) as [text|] eqn:Hs.
  2: { repeat split; try done. by eexists. }
  destruct (truthy_string text) eqn:Ht.
  - destruct (JSON_parse text) as [v|] eqn:Hp; simpl;
      repeat split; try done; try congruence; by eexists.
  - apply truthy_string_false in Ht as ->.
    split; [|by eauto]. intros text v [= <-] Hv.
    rewrite JSON_parse_empty in Hv. discriminate.
Qed.

(** C7, amended: when the store accepts the write (the new contents fit the
    quota) and the value is one that [JSON.parse] gives back from its
    [JSON.stringify], writing it under a key through [setValue] and then
    reading the key, in that store and with any [initialValue], answers the
    value written. *)
Theorem write_then_read (key : string) (cell : App → T)
    (setCell : T → App → App) (value : T + (T → T)) (initialValue : T)
    (s s2 : State) :
  let v :=
    match value with
    | inr f => f (cell (app s))
    | inl v => v
    end in
  let s1 := exec (setValue key cell setCell value) s in
  JSON_parse (JSON_stringify v) = Some v →
  usage (<[key := JSON_stringify v]> (entries (localStorage (world s))))
    ≤ quota (localStorage (world s)) →
  localStorage (world s2) = localStorage (world s1) →
  outcome (useLocalStorage_read key initialValue) s2 = Normal v.
Proof.
  intros v s1 Hrt Hfit Hsame.
  unfold outcome. rewrite useLocalStorage_read_run, Hsame.
  unfold s1. rewrite (setValue_stores key cell setCell value s Hfit). fold v.
  by rewrite (stringify_not_empty v Hrt), Hrt.
Qed.

End Container.

(** ** Customers and documents *)

Section Collections.
Context `{!Builtins} `{!JSON (list Customer.t)} `{!JSON (list Document.t)}.

Lemma handleSubmit_run (s : State) :
  handleSubmit s =
    if negb (truthy_string (name (form s)))
       || negb (truthy_string (email (form s)))
    then (Normal tt, s)
    else
      let newCustomer :=
        {| Customer.id :=
             timestamp_toString (clock (world s) (clock_reads (world s)));
           Customer.name := name (form s); Customer.email := email (form s);
           Customer.address := address (form s) |} in
      (Normal tt,
       modify_form (λ _, {| name := ""; email := ""; address := "" |})
         (snd (setCustomers (inr (λ prev, prev ++ [newCustomer]))
                 (modify_world
                    (with_clock_reads (S (clock_reads (world s)))) s)))).
Proof.
  unfold handleSubmit, setForm. js_step.
  destruct (_ || _); [done|].
  unfold setCustomers. rewrite setValue_run. reflexivity.
Qed.

(** C5: with an empty name or an empty email, [addCustomer] (the form's
    [handleSubmit]) changes nothing at all, and tells nobody; otherwise the
    customers are the previous ones, in their order, followed by one new
    customer with the given name, email and address, whose identifier is
    made from the clock at that moment, so that it differs from the
    identifier made at any other reading of the clock. *)
Theorem addCustomer_aborts_or_appends (s : State) :
  let f := form s in
  let now := clock (world s) (clock_reads (world s)) in
  let s' := exec handleSubmit s in
  outcome handleSubmit s = Normal tt ∧
  (name f = "" ∨ email f = "" → s' = s) ∧
  (name f ≠ "" → email f ≠ "" →
     customers (app s') = customers (app s) ++
       [{| Customer.id := timestamp_toString now;
           Customer.name := name f; Customer.email := email f;
           Customer.address := address f |}] ∧
     ∀ t, t ≠ now → timestamp_toString t ≠ timestamp_toString now).
Proof.
  unfold exec, outcome. rewrite handleSubmit_run. cbv zeta.
  destruct (truthy_string (name (form s))) eqn:Hn;
    destruct (truthy_string (email (form s))) eqn:He; simpl;
    rewrite ?truthy_string_true, ?truthy_string_false in *.
  2-4: (split; [done|]; split; [done|]; intros ? ?; congruence).
  split; [done|]. split; [intros [?|?]; congruence|]. intros _ _. split.
  - unfold setCustomers. rewrite setValue_run. simpl.
    by destruct (Storage_setItem _ _ _).
  - intros t Ht Heq. by apply Ht, timestamp_toString_inj.
Qed.

Lemma saveDocument_run (s : State) :
  saveDocument s =
    let d := draft s in
    let w := world s in
    if negb (truthy_string (customerId d)) || (length (lineItems d) =? 0)
    then
      (Normal tt,
       modify_world (λ w, with_alerts (alerts w ++ [save_message]) w) s)
    else
      let newDoc :=
        {| Document.id := timestamp_toString (clock w (clock_reads w));
           Document.customerId := customerId d;
           Document.type := type d;
           Document.date := Date_toISOString (clock w (S (clock_reads w)));
           Document.lineItems := lineItems d |} in
      (Normal tt,
       modify_app (with_activeView "dashboard")
         (snd (setDocuments (inr (λ prev, prev ++ [newDoc]))
                 (modify_world
                    (with_clock_reads (S (S (clock_reads w)))) s)))).
Proof.
  unfold saveDocument, setActiveView. js_step.
  destruct (_ || _); [done|].
  unfold setDocuments. rewrite !setValue_run. reflexivity.
Qed.

(** C2: with an empty customerId or no line item, [saveDocument] alerts the
    user and changes nothing else: the documents, the active view, the
    draft and the store are as before.  Otherwise the documents are the
    previous ones followed by one new document with the draft's type,
    customerId and line items, an identifier made from the clock at that
    moment (so that it differs from the identifier made at any other
    reading) and the date of that moment, and the active view is the
    dashboard. *)
Theorem saveDocument_rejects_or_appends (s : State) :
  let d := draft s in
  let w := world s in
  let now := clock w (clock_reads w) in
  let s' := exec saveDocument s in
  outcome saveDocument s = Normal tt ∧
  (customerId d = "" ∨ lineItems d = [] →
     alerts (world s') = alerts w ++ [save_message] ∧
     app s' = app s ∧ form s' = form s ∧ draft s' = draft s ∧
     localStorage (world s') = localStorage w ∧
     console (world s') = console w) ∧
  (customerId d ≠ "" → lineItems d ≠ [] →
     documents (app s') = documents (app s) ++
       [{| Document.id := timestamp_toString now;
           Document.customerId := customerId d;
           Document.type := type d;
           Document.date := Date_toISOString (clock w (S (clock_reads w)));
           Document.lineItems := lineItems d |}] ∧
     activeView (app s') = "dashboard" ∧
     customers (app s') = customers (app s) ∧
     alerts (world s') = alerts w ∧
     ∀ t, t ≠ now → timestamp_toString t ≠ timestamp_toString now).
Proof.
  unfold exec, outcome. rewrite saveDocument_run. cbv zeta.
  destruct (truthy_string (customerId (draft s))) eqn:Hc;
    destruct (lineItems (draft s)) as [|item items] eqn:Hl; simpl;
    rewrite ?truthy_string_true, ?truthy_string_false in *.
  all: (split; [done|]); split; try done; try (intros [?|?]; congruence).
  intros _ _. unfold setDocuments. rewrite setValue_run. simpl.
  destruct (Storage_setItem _ _ _); simpl; repeat split; try done.
  all: intros t Ht Heq; by apply Ht, timestamp_toString_inj.
Qed.

End Collections.

(** ** The AI draft generator *)

Lemma append_inj_same_length (a a' b b' : string) :
  String.length a = String.length a' → a +:+ b = a' +:+ b' → a = a' ∧ b = b'.
Proof.
  revert a'. induction a as [|c a IH]; intros [|c' a'] Hlen Heq;
    simpl in *; try discriminate.
  - done.
  - injection Heq as -> Heq. injection Hlen as Hlen.
    destruct (IH a' Hlen Heq) as [-> ->]. done.
Qed.

Section Generator.
Context `{!Builtins} `{!JSON json}.

Lemma get_property_lineItems result s :
  result ≠ JNull →
  get_property result "lineItems" s = (Normal (lineItems_of result), s).
Proof. by destruct result. Qed.

Lemma handleGenerateWithAI_sent reply s :
  aiPrompt (draft s) ≠ "" →
  handleGenerateWithAI reply s = handleGenerateWithAI_resume reply (after_call s).
Proof.
  intros Hp. apply truthy_string_true in Hp.
  unfold handleGenerateWithAI, handleGenerateWithAI_call, setIsLoading.
  js_step. rewrite Hp. reflexivity.
Qed.

(** C10: with an empty prompt [handleGenerateWithAI] returns at once and
    leaves the whole state as it is: no request is recorded, the line items
    are untouched, and the loading flag is never written. *)
Theorem generate_with_empty_prompt (reply : ai_reply) (s : State) :
  aiPrompt (draft s) = "" →
  handleGenerateWithAI_call s = (Normal false, s) ∧
  handleGenerateWithAI reply s = (Normal tt, s).
Proof.
  intros Hp. unfold handleGenerateWithAI, handleGenerateWithAI_call. js_step.
  by rewrite Hp.
Qed.

Lemma resume_raises reply e s :
  raises reply e →
  handleGenerateWithAI_resume reply s = (Normal tt, after_error e s).
Proof.
  intros Hr. unfold handleGenerateWithAI_resume, setIsLoading, setLineItems.
  destruct Hr as [|text Hp|text Hp|text result v Hp Hl Ht Hv]; js_step;
    rewrite ?Hp; try reflexivity.
  assert (result ≠ JNull) as Hn by (intros ->; discriminate).
  rewrite (get_property_lineItems _ _ Hn), Hl, Ht.
  destruct v; try reflexivity; try discriminate. by destruct (Hv elements).
Qed.

Lemma resume_lacks reply s :
  lacks_lineItems reply →
  handleGenerateWithAI_resume reply s =
    (Normal tt, modify_draft (with_isLoading false) s).
Proof.
  intros [text result Hp Hn Ht].
  unfold handleGenerateWithAI_resume, setIsLoading, setLineItems. js_step.
  rewrite Hp, (get_property_lineItems _ _ Hn), Ht. reflexivity.
Qed.

(** C3, amended: a failure that throws inside the handler (the request is
    rejected, the response is not JSON, it parses to [null], or its
    [lineItems] is truthy and not an array) is reported to the user, leaves
    the draft's line items as they were and ends with the loading flag
    cleared.  A response that parses and has no [lineItems], or a falsy one,
    leaves the line items as they were and the flag cleared as well, but
    nothing is reported.  Both hold for the continuation of the handler in
    whatever state the reply finds, and for the whole handler run from a
    state with a prompt. *)
Theorem generate_failure_outcomes (reply : ai_reply) (s : State) :
  (∀ e, raises reply e →
     reports_error s (handleGenerateWithAI_resume reply s) ∧
     (aiPrompt (draft s) ≠ "" →
      reports_error s (handleGenerateWithAI reply s))) ∧
  (lacks_lineItems reply →
     stays_silent s (handleGenerateWithAI_resume reply s) ∧
     (aiPrompt (draft s) ≠ "" →
      stays_silent s (handleGenerateWithAI reply s))).
Proof.
  split.
  - intros e He. split.
    + by rewrite (resume_raises _ _ _ He).
    + intros Hp. rewrite (handleGenerateWithAI_sent _ _ Hp).
      by rewrite (resume_raises _ _ _ He).
  - intros Hl. split.
    + by rewrite (resume_lacks _ _ Hl).
    + intros Hp. rewrite (handleGenerateWithAI_sent _ _ Hp).
      by rewrite (resume_lacks _ _ Hl).
Qed.

Lemma Array_map_with_new_id elements records s :
  Forall2 (λ e r, as_item e = Some r) elements records →
  Array_map with_new_id elements s =
    (Normal (stamped (clock (world s)) (random (world s))
               (clock_reads (world s)) (random_reads (world s)) records),
     after_reads (length records) s).
Proof.
  intros HF. revert s. induction HF as [|e [[d q] p] es rs He _ IH]; intros s.
  - simpl. unfold ret. by destruct s as [? ? ? []].
  - simpl. unfold with_new_id. rewrite He. js_step.
    rewrite IH. destruct s as [a f dr w]. destruct w. simpl.
    unfold after_reads, modify_world. simpl. rewrite !Nat.add_succ_r.
    reflexivity.
Qed.

Lemma resume_items text result elements records s :
  JSON_parse text = Some result →
  lineItems_of result = Some (JArray elements) →
  Forall2 (λ e r, as_item e = Some r) elements records →
  handleGenerateWithAI_resume (Resolved text) s =
    (Normal tt,
     modify_draft (with_isLoading false)
       (modify_draft
          (with_lineItems
             (stamped (clock (world s)) (random (world s))
                (clock_reads (world s)) (random_reads (world s)) records))
          (after_reads (length records) s))).
Proof.
  intros Hp Hl HF.
  assert (result ≠ JNull) as Hn by (intros ->; discriminate).
  unfold handleGenerateWithAI_resume, setIsLoading, setLineItems. js_step.
  rewrite Hp, (get_property_lineItems _ _ Hn), Hl. simpl. js_step.
  rewrite (Array_map_with_new_id _ _ _ HF). reflexivity.
Qed.

Lemma stamped_fields clock random c r records :
  map (λ item, (LineItem.description item, LineItem.quantity item,
                LineItem.unitPrice item))
    (stamped clock random c r records) = records.
Proof.
  revert c r. induction records as [|[[d q] p] rest IH]; intros c r; simpl;
    [done|]. by rewrite IH.
Qed.

Lemma stamped_lookup clock random c r records i item :
  stamped clock random c r records !! i = Some item →
  i < length records ∧
  LineItem.id item =
    timestamp_toString (clock (c + i)) +:+ Number_toString (random (r + i)).
Proof.
  revert c r i. induction records as [|[[d q] p] rest IH]; intros c r i;
    simpl; [done|].
  destruct i as [|i]; simpl.
  - intros [= <-]. rewrite !Nat.add_0_r. split; [lia|done].
  - intros Hi. apply IH in Hi as [Hlt ->]. rewrite !Nat.add_succ_r.
    split; [lia|done].
Qed.

Lemma stamped_ids_NoDup (w : World) records :
  distinct_draws (length records) w →
  NoDup (map LineItem.id
           (stamped (clock w) (random w) (clock_reads w) (random_reads w)
              records)).
Proof.
  intros Hd. apply NoDup_alt. intros i j x Hi Hj.
  rewrite list_lookup_fmap in Hi, Hj.
  destruct (stamped _ _ _ _ _ !! i) as [a|] eqn:Ha; [|done].
  destruct (stamped _ _ _ _ _ !! j) as [b|] eqn:Hb; [|done].
  simpl in Hi, Hj. injection Hi as Hi. injection Hj as Hj.
  apply stamped_lookup in Ha as [Hia Ha], Hb as [Hjb Hb].
  assert (LineItem.id a = LineItem.id b) as Heq by congruence.
  rewrite Ha, Hb in Heq.
  destruct (Nat.lt_trichotomy i j) as [Hlt|[->|Hlt]]; [|done|].
  - destruct (Hd i j) as [Hlen Hne]; [lia|].
    by destruct (append_inj_same_length _ _ _ _ Hlen Heq).
  - destruct (Hd j i) as [Hlen Hne]; [lia|].
    by destruct (append_inj_same_length _ _ _ _ Hlen (eq_sym Heq)).
Qed.

Lemma replaces_after_reads records s s0 :
  world s = world s0 ∨ world s = world (after_call s0) →
  replaces_lineItems records s0
    (Normal tt,
     modify_draft (with_isLoading false)
       (modify_draft
          (with_lineItems
             (stamped (clock (world s)) (random (world s))
                (clock_reads (world s)) (random_reads (world s)) records))
          (after_reads (length records) s))).
Proof.
  intros Hw. unfold replaces_lineItems. simpl.
  assert (clock (world s) = clock (world s0) ∧
          random (world s) = random (world s0) ∧
          clock_reads (world s) = clock_reads (world s0) ∧
          random_reads (world s) = random_reads (world s0) ∧
          alerts (world s) = alerts (world s0)) as (-> & -> & -> & -> & ->)
    by (destruct Hw as [->| ->]; done).
  repeat split; try done.
  - apply stamped_fields.
  - intros i item Hi. by apply stamped_lookup in Hi as [_ ->].
Qed.

(** C4, amended: when the response parses to an object whose [lineItems] is
    an array of records with a description, a quantity and a unit price,
    the handler replaces the draft's line items by exactly those records,
    in order, gives the [i]-th the identifier made of the next reading of the
    clock followed by the next draw of [Math.random], and ends with the
    loading flag cleared and nothing reported.  These identifiers are
    pairwise distinct whenever the draws print differently beside timestamps
    of one width. *)
Theorem generate_success_replaces (s : State) (text : string) (result : json)
    (elements : list json) (records : list (string * number * number)) :
  JSON_parse text = Some result →
  lineItems_of result = Some (JArray elements) →
  Forall2 (λ e r, as_item e = Some r) elements records →
  let r := handleGenerateWithAI_resume (Resolved text) s in
  replaces_lineItems records s r ∧
  (distinct_draws (length records) (world s) →
   NoDup (map LineItem.id (lineItems (draft r.2)))) ∧
  (aiPrompt (draft s) ≠ "" →
   replaces_lineItems records s (handleGenerateWithAI (Resolved text) s)).
Proof.
  intros Hp Hl HF. cbv zeta.
  rewrite (resume_items _ _ _ _ s Hp Hl HF). split; [|split].
  - apply replaces_after_reads. by left.
  - intros Hd. simpl. by apply stamped_ids_NoDup.
  - intros Hprompt. rewrite (handleGenerateWithAI_sent _ _ Hprompt).
    rewrite (resume_items _ _ _ _ _ Hp Hl HF).
    apply replaces_after_reads. by right.
Qed.

End Generator.

(** ** The JSON of the customers

    The reader above reads back what the writer writes for a collection of
    customers, whatever characters their fields hold. *)

Lemma append_cons (x : ascii) (a b : string) :
  String x a +:+ b = String x (a +:+ b).
Proof. reflexivity. Qed.

Lemma append_nil (b : string) : "" +:+ b = b.
Proof. reflexivity. Qed.

Lemma append_assoc (a b c : string) : (a +:+ b) +:+ c = a +:+ (b +:+ c).
Proof.
  induction a as [|x a IH]; [done|]. rewrite !append_cons. by rewrite IH.
Qed.

Lemma length_append (a b : string) :
  String.length (a +:+ b) = String.length a + String.length b.
Proof.
  induction a as [|x a IH]; [done|]. rewrite append_cons. simpl. by rewrite IH.
Qed.

(** Reading back one written character, whichever it is. *)
Lemma read_string_escape_char (c : ascii) (s : string) :
  read_string (escape_char c +:+ s) =
    match read_string s with
    | Some (body, after) => Some (String c body, after)
    | None => None
    end.
Proof.
  destruct c as [[] [] [] [] [] [] [] []]; reflexivity.
Qed.

Lemma read_string_escape (s rest : string) :
  read_string (escape s +:+ String quote_char rest) = Some (s, rest).
Proof.
  induction s as [|c s IH]; [done|]. simpl escape.
  by rewrite append_assoc, read_string_escape_char, IH.
Qed.

Lemma print_string_append (s rest : string) :
  print_string s +:+ rest = String quote_char (escape s +:+ String quote_char rest).
Proof. unfold print_string. by rewrite append_assoc, !append_cons, append_nil. Qed.

Lemma read_value_string fuel (s rest : string) :
  read_value (S fuel) (print_string s +:+ rest) = Some (JString s, rest).
Proof.
  rewrite print_string_append. simpl. by rewrite read_string_escape.
Qed.

(** One member with a string for value, before a comma and before the
    closing brace. *)
Lemma read_members_more fuel (key s rest : string) :
  read_members (S (S fuel))
    (print_string key +:+ ":" +:+ print_string s +:+ "," +:+ rest) =
    match read_members (S fuel) rest with
    | Some (later, after) => Some (add_member key (JString s) later, after)
    | None => None
    end.
Proof.
  rewrite print_string_append.
  change (read_members (S (S fuel)) (String quote_char ?x)) with
    (match read_string x with
     | Some (k, after_key) =>
         match skip_space after_key with
         | String ":" rest' =>
             match read_value (S fuel) rest' with
             | Some (value, after) =>
                 match skip_space after with
                 | String "," rest'' =>
                     match read_members (S fuel) rest'' with
                     | Some (later, after') =>
                         Some (add_member k value later, after')
                     | None => None
                     end
                 | String "}" rest'' => Some ([(k, value)], rest'')
                 | _ => None
                 end
             | None => None
             end
         | _ => None
         end
     | None => None
     end).
  rewrite read_string_escape. rewrite append_cons, append_nil.
  change (skip_space (String ":" ?x)) with (String ":" x). cbv iota beta.
  rewrite read_value_string. rewrite append_cons, append_nil.
  reflexivity.
Qed.

Lemma read_members_last fuel (key s rest : string) :
  read_members (S (S fuel))
    (print_string key +:+ ":" +:+ print_string s +:+ "}" +:+ rest) =
    Some ([(key, JString s)], rest).
Proof.
  rewrite print_string_append.
  change (read_members (S (S fuel)) (String quote_char ?x)) with
    (match read_string x with
     | Some (k, after_key) =>
         match skip_space after_key with
         | String ":" rest' =>
             match read_value (S fuel) rest' with
             | Some (value, after) =>
                 match skip_space after with
                 | String "," rest'' =>
                     match read_members (S fuel) rest'' with
                     | Some (later, after') =>
                         Some (add_member k value later, after')
                     | None => None
                     end
                 | String "}" rest'' => Some ([(k, value)], rest'')
                 | _ => None
                 end
             | None => None
             end
         | _ => None
         end
     | None => None
     end).
  rewrite read_string_escape. rewrite append_cons, append_nil.
  change (skip_space (String ":" ?x)) with (String ":" x). cbv iota beta.
  rewrite read_value_string. rewrite append_cons, append_nil.
  reflexivity.
Qed.

Lemma read_value_object fuel (key more : string) :
  read_value (S fuel) ("{" +:+ print_string key +:+ more) =
    match read_members fuel (print_string key +:+ more) with
    | Some (members, after) => Some (JObject members, after)
    | None => None
    end.
Proof. rewrite print_string_append. reflexivity. Qed.

Lemma print_customer (c : Customer.t) (rest : string) :
  print_json (customer_to_json c) +:+ rest =
  "{" +:+ print_string "id" +:+ ":" +:+ print_string (Customer.id c) +:+ "," +:+
  print_string "name" +:+ ":" +:+ print_string (Customer.name c) +:+ "," +:+
  print_string "email" +:+ ":" +:+ print_string (Customer.email c) +:+ "," +:+
  print_string "address" +:+ ":" +:+ print_string (Customer.address c) +:+ "}" +:+
  rest.
Proof.
  unfold customer_to_json. simpl. rewrite !append_assoc. reflexivity.
Qed.

Lemma read_value_customer fuel (c : Customer.t) (rest : string) :
  6 ≤ fuel →
  read_value fuel (print_json (customer_to_json c) +:+ rest) =
    Some (customer_to_json c, rest).
Proof.
  intros Hfuel.
  do 6 (destruct fuel as [|fuel]; [lia|]). clear Hfuel.
  rewrite print_customer, read_value_object.
  rewrite !read_members_more, read_members_last. reflexivity.
Qed.

Lemma join_one {A} (print : A → string) (x : A) :
  join_with_commas print [x] = print x +:+ "".
Proof. reflexivity. Qed.

Lemma join_more {A} (print : A → string) (x y : A) (l : list A) :
  join_with_commas print (x :: y :: l) =
  print x +:+ "," +:+ join_with_commas print (y :: l).
Proof. reflexivity. Qed.

Lemma read_elements_S fuel (s : string) :
  read_elements (S fuel) s =
    match read_value fuel s with
    | Some (first, after) =>
        match skip_space after with
        | String "," rest =>
            match read_elements fuel rest with
            | Some (others, after') => Some (first :: others, after')
            | None => None
            end
        | String "]" rest => Some ([first], rest)
        | _ => None
        end
    | None => None
    end.
Proof. reflexivity. Qed.

Lemma read_elements_customers (cs : list Customer.t) :
  ∀ (c : Customer.t) (fuel : nat) (rest : string),
    length cs + 7 ≤ fuel →
    read_elements fuel
      (join_with_commas print_json (map customer_to_json (c :: cs)) +:+
       "]" +:+ rest) =
      Some (map customer_to_json (c :: cs), rest).
Proof.
  induction cs as [|c' cs IH]; intros c fuel rest Hfuel;
    (destruct fuel as [|fuel]; [lia|]); cbn [length] in Hfuel; cbn [map].
  - rewrite join_one, !append_assoc, append_nil, read_elements_S.
    rewrite read_value_customer by lia. reflexivity.
  - rewrite join_more, !append_assoc, read_elements_S.
    rewrite read_value_customer by lia.
    rewrite append_cons, append_nil.
    change (skip_space (String "," ?x)) with (String "," x). cbv iota beta.
    change (customer_to_json c' :: map customer_to_json cs)
      with (map customer_to_json (c' :: cs)).
    rewrite IH by lia. reflexivity.
Qed.

Lemma append_empty (s : string) : s +:+ "" = s.
Proof. induction s as [|x s IH]; [done|]. by rewrite append_cons, IH. Qed.

Lemma length_print_customer (c : Customer.t) :
  6 ≤ String.length (print_json (customer_to_json c)).
Proof.
  rewrite <- (append_empty (print_json _)).
  rewrite print_customer, print_string_append, !append_cons. simpl. lia.
Qed.

Lemma length_join_customers (cs : list Customer.t) :
  6 * length cs ≤
  String.length (join_with_commas print_json (map customer_to_json cs)).
Proof.
  induction cs as [|c [|c' cs] IH]; [simpl; lia| |].
  - cbn [map]. rewrite join_one, length_append.
    pose proof (length_print_customer c). simpl. lia.
  - cbn [map] in *. rewrite join_more, !length_append.
    pose proof (length_print_customer c). cbn [length] in *. lia.
Qed.

Lemma read_json_customers (cs : list Customer.t) :
  read_json (print_json (JArray (map customer_to_json cs))) =
    Some (JArray (map customer_to_json cs)).
Proof.
  destruct cs as [|c cs]; [reflexivity|].
  unfold read_json.
  pose proof (length_join_customers (c :: cs)) as Hlen.
  change (print_json (JArray ?l))
    with ("[" +:+ join_with_commas print_json l +:+ "]") in *.
  set (body := join_with_commas print_json (map customer_to_json (c :: cs))) in *.
  assert (∃ fuel, S (2 * String.length ("[" +:+ body +:+ "]")) = S fuel ∧
                  length cs + 7 ≤ fuel) as (fuel & -> & Hfuel).
  { clearbody body. eexists. split; [reflexivity|].
    rewrite append_cons, append_nil. cbn [String.length].
    rewrite length_append. cbn [length String.length] in *. lia. }
  rewrite append_cons, append_nil.
  assert (∃ x more, body = String x more ∧ x ≠ "]"%char ∧ is_space x = false)
    as (x & more & Hbody & Hx & Hsp).
  { unfold body. destruct cs; cbn [map].
    - rewrite join_one, print_customer. by eexists _, _.
    - rewrite join_more, print_customer. by eexists _, _. }
  assert (read_value (S fuel) (String "[" (body +:+ "]")) =
          match read_elements fuel (body +:+ "]" +:+ "") with
          | Some (elements, after) => Some (JArray elements, after)
          | None => None
          end) as ->.
  { rewrite append_empty. rewrite Hbody, append_cons.
    destruct x as [[] [] [] [] [] [] [] []]; try done. }
  unfold body. rewrite read_elements_customers by done. reflexivity.
Qed.

Lemma customer_of_to_json (c : Customer.t) :
  customer_of_json (customer_to_json c) = Some c.
Proof. by destruct c. Qed.

Lemma mapM_map_Some {A B} (f : B → option A) (g : A → B) (l : list A) :
  (∀ x, f (g x) = Some x) → mapM f (map g l) = Some l.
Proof.
  intros Hfg. induction l as [|x l IH]; [done|].
  simpl. rewrite Hfg. simpl. by rewrite IH.
Qed.

Lemma customers_of_to_json (cs : list Customer.t) :
  array_of_json customer_of_json (JArray (map customer_to_json cs)) = Some cs.
Proof. apply mapM_map_Some, customer_of_to_json. Qed.

(** Every collection of customers comes back from its JSON text. *)
Lemma customers_JSON_round_trip (cs : list Customer.t) :
  JSON_parse (JSON := customers_JSON) (JSON_stringify (JSON := customers_JSON) cs)
  = Some cs.
Proof.
  cbn [JSON_parse JSON_stringify customers_JSON]. unfold read_as.
  by rewrite read_json_customers, customers_of_to_json.
Qed.

(** Hence customers written to a store that accepts them are the customers
    read after a reload. *)
Lemma customers_survive_a_reload (cs : list Customer.t) (s s2 : State) :
  let text := JSON_stringify (JSON := customers_JSON) cs in
  usage (<["gendocs_customers" := text]> (entries (localStorage (world s))))
    ≤ quota (localStorage (world s)) →
  localStorage (world s2) =
    localStorage (world (exec (setCustomers (JSON0 := customers_JSON) (inl cs)) s)) →
  outcome (useLocalStorage_read (JSON0 := customers_JSON) "gendocs_customers" [])
    s2 = Normal cs.
Proof.
  intros text Hfit Hsame.
  unfold outcome. rewrite useLocalStorage_read_run, Hsame.
  unfold setCustomers.
  rewrite (setValue_stores "gendocs_customers" customers with_customers
             (inl cs) s Hfit).
  pose proof (customers_JSON_round_trip cs) as Hrt.
  by rewrite (stringify_not_empty cs Hrt), Hrt.
Qed.

(** ** Runs *)

Section Runs.
#[local] Existing Instances browser_builtins browser_JSON customers_JSON
  documents_JSON.

(** The two examples of the specification for saving: an empty draft is
    rejected, the draft for c1 is saved with total 100 and the dashboard
    shown. *)
Lemma saveDocument_rejects_or_appends_witness :
  (customerId (draft (page usual_browser)) = "" ∧
   alerts (world (exec saveDocument (page usual_browser))) = [save_message] ∧
   app (exec saveDocument (page usual_browser)) = app (page usual_browser)) ∧
  (customerId (draft draft_for_c1) ≠ "" ∧ lineItems (draft draft_for_c1) ≠ [] ∧
   documents (app (exec saveDocument draft_for_c1)) =
     [Document.mk "1700000000001" "c1" Invoice "2023-11-14T22:13:20.002Z"
        [LineItem.mk "1700000000000" "X" 1%float 100%float]] ∧
   activeView (app (exec saveDocument draft_for_c1)) = "dashboard" ∧
   calculateTotal [LineItem.mk "1700000000000" "X" 1%float 100%float] = 100%float).
Proof.
  split.
  - split; [reflexivity|].
    destruct (saveDocument_rejects_or_appends (page usual_browser))
      as (_ & Hreject & _).
    destruct Hreject as (Ha & Happ & _); [left; reflexivity|].
    split; [exact Ha | exact Happ].
  - assert (customerId (draft draft_for_c1) ≠ "") as Hc
      by (vm_compute; discriminate).
    assert (lineItems (draft draft_for_c1) ≠ []) as Hl
      by (vm_compute; discriminate).
    split; [exact Hc|]. split; [exact Hl|].
    destruct (saveDocument_rejects_or_appends draft_for_c1) as (_ & _ & Happend).
    destruct (Happend Hc Hl) as (Hd & Hv & _).
    split; [rewrite Hd; vm_compute; reflexivity|].
    split; [exact Hv | reflexivity].
Defined.

(** A form without a name changes nothing; Ada's form adds Ada. *)
Lemma addCustomer_aborts_or_appends_witness :
  (name (form form_without_name) = "" ∧
   exec handleSubmit form_without_name = form_without_name) ∧
  (name (form form_for_ada) ≠ "" ∧ email (form form_for_ada) ≠ "" ∧
   customers (app (exec handleSubmit form_for_ada)) = [ada]).
Proof.
  split.
  - split; [reflexivity|].
    destruct (addCustomer_aborts_or_appends form_without_name)
      as (_ & Habort & _).
    apply Habort. left. reflexivity.
  - assert (name (form form_for_ada) ≠ "") as Hn by (vm_compute; discriminate).
    assert (email (form form_for_ada) ≠ "") as He by (vm_compute; discriminate).
    split; [exact Hn|]. split; [exact He|].
    destruct (addCustomer_aborts_or_appends form_for_ada) as (_ & _ & Happend).
    destruct (Happend Hn He) as [Hc _]. exact Hc.
Defined.

(** Reading what was written, reading an absent key, and reading a text
    that is not JSON. *)
Lemma useLocalStorage_read_falls_back_witness :
  read_customers ada_written = Normal [ada] ∧
  read_customers (page usual_browser) = Normal [] ∧
  read_customers page_with_garbage = Normal [].
Proof.
  split; [|split].
  - destruct (useLocalStorage_read_falls_back (T := list Customer.t)
                "gendocs_customers" []
                ada_written) as (Hparsed & _).
    apply (Hparsed (JSON_stringify [ada])); vm_compute; reflexivity.
  - destruct (useLocalStorage_read_falls_back (T := list Customer.t)
                "gendocs_customers" []
                (page usual_browser)) as (_ & Habsent & _).
    apply Habsent. vm_compute. reflexivity.
  - destruct (useLocalStorage_read_falls_back (T := list Customer.t)
                "gendocs_customers" []
                page_with_garbage) as (_ & _ & Hgarbage & _).
    apply (Hgarbage "[{oops"); vm_compute; reflexivity.
Defined.

(** Ada written, the page reloaded, Ada read. *)
Lemma write_then_read_witness :
  JSON_parse (JSON_stringify [ada]) = Some [ada] ∧
  outcome (useLocalStorage_read "gendocs_customers" [])
    (modify_app (with_customers []) ada_written) = Normal [ada].
Proof.
  split; [vm_compute; reflexivity|].
  apply (write_then_read "gendocs_customers" customers with_customers
           (inl [ada]) [] (page usual_browser)).
  - vm_compute. reflexivity.
  - apply Nat.leb_le. vm_compute. reflexivity.
  - reflexivity.
Defined.

(** C7 as stated fails where the store is full: [setValue] swallows the
    [QuotaExceededError], the cell holds Ada, and a read finds nothing. *)
Lemma full_store_loses_the_write :
  JSON_parse (JSON_stringify [ada]) = Some [ada] ∧
  customers (app ada_written_to_full_store) = [ada] ∧
  read_customers ada_written_to_full_store = Normal [] ∧
  read_customers ada_written_to_full_store ≠ Normal [ada].
Proof.
  split; [vm_compute; reflexivity|].
  split; [vm_compute; reflexivity|].
  split; [vm_compute; reflexivity|].
  vm_compute. discriminate.
Qed.

(** Setting the unit price of line X to 250. *)
Lemma updateLineItem_frame_witness :
  lineItems (draft draft_for_c1) !! 0 =
    Some (LineItem.mk "1700000000000" "X" 1%float 100%float) ∧
  lineItems (draft (exec (updateLineItem "1700000000000" unitPrice 250%float)
                      draft_for_c1)) !! 0 =
    Some (LineItem.mk "1700000000000" "X" 1%float 250%float).
Proof.
  assert (lineItems (draft draft_for_c1) !! 0 =
          Some (LineItem.mk "1700000000000" "X" 1%float 100%float)) as H0
    by (vm_compute; reflexivity).
  split; [exact H0|].
  destruct (updateLineItem_frame "1700000000000" unitPrice 250%float
              draft_for_c1) as (_ & _ & _ & _ & _ & Hitems).
  destruct (Hitems 0 _ H0) as (item' & -> & Hid & _ & Hset).
  destruct (Hset eq_refl) as [Hprice Hother].
  pose proof (Hother description ltac:(discriminate)) as Hd.
  pose proof (Hother quantity ltac:(discriminate)) as Hq.
  destruct item'. simpl in *. congruence.
Defined.

(** A click on Generate Items with nothing typed. *)
Lemma generate_with_empty_prompt_witness :
  aiPrompt (draft (page usual_browser)) = "" ∧
  generate_in_browser Rejected (page usual_browser) =
    (Normal tt, page usual_browser).
Proof.
  split; [reflexivity|].
  apply (generate_with_empty_prompt Rejected (page usual_browser)).
  reflexivity.
Defined.

(** A text that is not JSON and a rejected request are reported; an empty
    object is not. *)
Lemma generate_failure_outcomes_witness :
  (raises (Resolved "[{oops") SyntaxError ∧
   reports_error draft_with_prompt
     (generate_in_browser (Resolved "[{oops") draft_with_prompt)) ∧
  (raises Rejected RequestError ∧
   reports_error draft_with_prompt
     (resume_in_browser Rejected draft_with_prompt)) ∧
  (lacks_lineItems (Resolved "{}") ∧
   stays_silent draft_with_prompt
     (generate_in_browser (Resolved "{}") draft_with_prompt)).
Proof.
  assert (aiPrompt (draft draft_with_prompt) ≠ "") as Hp
    by (vm_compute; discriminate).
  assert (raises (Resolved "[{oops") SyntaxError) as H1
    by (apply raises_unparseable; reflexivity).
  assert (lacks_lineItems (Resolved "{}")) as H3
    by (by apply (lacks_lineItems_intro "{}" (JObject []))).
  split; [|split].
  - split; [exact H1|].
    destruct (generate_failure_outcomes (Resolved "[{oops") draft_with_prompt)
      as [Hraises _].
    destruct (Hraises _ H1) as [_ Hfull]. exact (Hfull Hp).
  - split; [constructor|].
    destruct (generate_failure_outcomes Rejected draft_with_prompt)
      as [Hraises _].
    destruct (Hraises _ raises_rejected) as [Hresume _]. exact Hresume.
  - split; [exact H3|].
    destruct (generate_failure_outcomes (Resolved "{}") draft_with_prompt)
      as [_ Hlacks].
    destruct (Hlacks H3) as [_ Hfull]. exact (Hfull Hp).
Defined.

(** C3 as stated fails on a response without [lineItems]: the empty object
    violates the schema and nothing is reported. *)
Lemma missing_lineItems_goes_unreported :
  failure (Resolved "{}") ∧
  alerts (world (exec (resume_in_browser (Resolved "{}")) draft_with_prompt))
    = [] ∧
  ¬ reports_error draft_with_prompt
      (resume_in_browser (Resolved "{}") draft_with_prompt).
Proof.
  split; [vm_compute; reflexivity|].
  split; [vm_compute; reflexivity|].
  intros (_ & Ha & _). vm_compute in Ha. discriminate.
Qed.

(** The example of the specification: Design and Hosting replace the
    draft's line. *)
Lemma generate_success_replaces_witness :
  JSON_parse (print_json design_and_hosting) = Some design_and_hosting ∧
  distinct_draws 2 (world draft_with_prompt) ∧
  lineItems (draft (exec (resume_in_browser
                            (Resolved (print_json design_and_hosting)))
                      draft_with_prompt)) =
    [LineItem.mk "17000000000010.25" "Design" 10%float 50%float;
     LineItem.mk "17000000000020.375" "Hosting" 1%float 120%float] ∧
  NoDup (map LineItem.id
           (lineItems (draft (exec (resume_in_browser
                                      (Resolved (print_json design_and_hosting)))
                                draft_with_prompt)))) ∧
  replaces_lineItems [("Design", 10%float, 50%float);
                      ("Hosting", 1%float, 120%float)]
    draft_with_prompt
    (generate_in_browser (Resolved (print_json design_and_hosting))
       draft_with_prompt).
Proof.
  assert (JSON_parse (print_json design_and_hosting) = Some design_and_hosting)
    as Hparse by (vm_compute; reflexivity).
  assert (distinct_draws 2 (world draft_with_prompt)) as Hdraws.
  { intros i j Hij. assert (i = 0 ∧ j = 1) as [-> ->] by lia.
    split; [reflexivity|]. vm_compute. discriminate. }
  destruct (generate_success_replaces draft_with_prompt
              (print_json design_and_hosting) design_and_hosting
              [JObject [("description", JString "Design");
                        ("quantity", JNumber 10); ("unitPrice", JNumber 50)];
               JObject [("description", JString "Hosting");
                        ("quantity", JNumber 1); ("unitPrice", JNumber 120)]]
              [("Design", 10%float, 50%float); ("Hosting", 1%float, 120%float)]
              Hparse eq_refl)
    as (Hreplaced & Hunique & Hfull).
  { repeat constructor. }
  split; [exact Hparse|]. split; [exact Hdraws|].
  split; [vm_compute; reflexivity|].
  split; [exact (Hunique Hdraws)|].
  apply Hfull. vm_compute. discriminate.
Defined.

(** C4 as stated fails where [Math.random] draws the same number twice
    within one millisecond: the two new items share their identifier. *)
Lemma repeated_draw_repeats_identifier :
  JSON_parse (print_json design_and_hosting) = Some design_and_hosting ∧
  map LineItem.id
    (lineItems (draft (exec (resume_in_browser
                               (Resolved (print_json design_and_hosting)))
                         draft_in_stuck_browser))) =
    ["17000000000000.5"; "17000000000000.5"] ∧
  ¬ NoDup (map LineItem.id
             (lineItems (draft (exec (resume_in_browser
                                        (Resolved (print_json design_and_hosting)))
                                  draft_in_stuck_browser)))).
Proof.
  assert (map LineItem.id
    (lineItems (draft (exec (resume_in_browser
                               (Resolved (print_json design_and_hosting)))
                         draft_in_stuck_browser))) =
    ["17000000000000.5"; "17000000000000.5"]) as Hids
    by (vm_compute; reflexivity).
  split; [vm_compute; reflexivity|]. split; [exact Hids|].
  rewrite Hids. intros Hnd. apply NoDup_cons in Hnd as [Hnotin _].
  apply Hnotin. left.
Qed.

(** C9, which the code breaks: two clicks on Add Item within one
    millisecond give two line items the same identifier, and Save stores
    the document with both. *)
Theorem quick_clicks_save_a_repeated_identifier :
  documents (app two_quick_items_saved) =
    [Document.mk "1700000000000" "1700000000000" Invoice
       "2023-11-14T22:13:20.000Z"
       [LineItem.mk "1700000000000" "" 1%float 0%float;
        LineItem.mk "1700000000000" "" 1%float 0%float]] ∧
  ¬ NoDup (map LineItem.id
             [LineItem.mk "1700000000000" "" 1%float 0%float;
              LineItem.mk "1700000000000" "" 1%float 0%float]).
Proof.
  split; [vm_compute; reflexivity|].
  simpl. intros Hnd. apply NoDup_cons in Hnd as [Hnotin _].
  apply Hnotin. left.
Qed.
End Runs.

(** * More of the code *)

(** ** Dashboard *)

Lemma has_type_true t d : has_type t d = true ↔ Document.type d = t.
Proof. unfold has_type. destruct (Document.type d), t; split; congruence. Qed.

(** X1: the dashboard's two lists hold the invoices and the quotations, each
    in the order of the collection; no document is in both, and together
    they are the collection. *)
Theorem dashboard_partitions_documents (documents : list Document.t) :
  Forall (λ d, Document.type d = Invoice) (invoices documents) ∧
  Forall (λ d, Document.type d = Quotation) (quotations documents) ∧
  sublist (invoices documents) documents ∧
  sublist (quotations documents) documents ∧
  (∀ d, d ∈ invoices documents → d ∉ quotations documents) ∧
  documents ≡ₚ invoices documents ++ quotations documents.
Proof.
  unfold invoices, quotations. repeat split.
  - apply Forall_forall. intros d Hd. apply list_elem_of_In, filter_In in Hd as [_ Hd].
    by apply has_type_true.
  - apply Forall_forall. intros d Hd. apply list_elem_of_In, filter_In in Hd as [_ Hd].
    by apply has_type_true.
  - induction documents as [|d l IH]; simpl; [constructor|].
    destruct (has_type Invoice d); by constructor.
  - induction documents as [|d l IH]; simpl; [constructor|].
    destruct (has_type Quotation d); by constructor.
  - intros d Hi Hq.
    apply list_elem_of_In, filter_In in Hi as [_ Hi].
    apply list_elem_of_In, filter_In in Hq as [_ Hq].
    apply has_type_true in Hi, Hq. congruence.
  - induction documents as [|d l IH]; simpl; [done|].
    unfold has_type. destruct (Document.type d); simpl.
    + by constructor.
    + rewrite IH at 1. apply Permutation_middle.
Qed.

(** X2: [getCustomerName] answers Unknown for an identifier no customer
    has, and otherwise the name of the first customer with it, or Unknown
    when that name is empty. *)
Theorem getCustomerName_falls_back (customers : list Customer.t) (id : string) :
  ((∀ c, c ∈ customers → Customer.id c ≠ id) →
     getCustomerName customers id = "Unknown") ∧
  (∀ before c after,
     customers = before ++ c :: after →
     (∀ b, b ∈ before → Customer.id b ≠ id) →
     Customer.id c = id →
     getCustomerName customers id =
       if decide (Customer.name c = "") then "Unknown" else Customer.name c).
Proof.
  unfold getCustomerName. split.
  - intros Hnone.
    destruct (List.find _ customers) as [c|] eqn:Hf; [|done].
    apply find_some in Hf as [Hin Hid].
    apply bool_decide_eq_true in Hid. by destruct (Hnone c (proj2 (list_elem_of_In _ _) Hin)).
  - intros before c after -> Hbefore Hid.
    assert (List.find (λ c0, bool_decide (Customer.id c0 = id))
              (before ++ c :: after) = Some c) as ->.
    { induction before as [|b before IH]; simpl.
      - by rewrite bool_decide_eq_true_2.
      - rewrite bool_decide_eq_false_2 by (apply Hbefore; left).
        apply IH. intros b' Hb'. apply Hbefore. by right. }
    unfold truthy_string. by destruct (decide (Customer.name c = "")).
Qed.

Lemma or_zero_not_nan x : PrimFloat.is_nan (or_zero x) = false.
Proof.
  unfold or_zero. destruct (PrimFloat.eqb x 0) eqn:H0; [done|].
  simpl. by destruct (PrimFloat.is_nan x) eqn:Hn.
Qed.

(** ** Edits of the draft *)


Lemma filter_snoc_other (id : string) (l : list LineItem.t) (x : LineItem.t) :
  Forall (λ item, LineItem.id item ≠ id) l → LineItem.id x = id →
  filter (λ item, LineItem.id item ≠ id) (l ++ [x]) = l.
Proof.
  intros Hall Hx. rewrite filter_app, filter_cons_False, filter_nil, app_nil_r
    by (intros H; by apply H).
  induction Hall as [|item l' Hitem _ IH]; [done|].
  rewrite filter_cons_True by done. by rewrite IH.
Qed.

(** X4: adding a line and removing it by its identifier gives back the lines
    there were, provided none of them had that identifier. *)
Theorem add_then_remove_restores (s : State) :
  let now := clock (world s) (clock_reads (world s)) in
  Forall (λ item, LineItem.id item ≠ timestamp_toString now)
    (lineItems (draft s)) →
  lineItems (draft (exec (addLineItem ;; removeLineItem (timestamp_toString now)) s))
  = lineItems (draft s).
Proof.
  intros now Hnew. unfold addLineItem, removeLineItem, setLineItems. js_step.
  simpl. by apply filter_snoc_other.
Qed.

(** X5: of two edits of one field of one line the later wins; edits of
    different lines, or of different fields, commute. *)
Theorem updateLineItem_composes (s : State) :
  (∀ id field (v1 v2 : field_type field),
     exec (updateLineItem id field v1 ;; updateLineItem id field v2) s =
     exec (updateLineItem id field v2) s) ∧
  (∀ id1 id2 field1 field2 (v1 : field_type field1) (v2 : field_type field2),
     id1 ≠ id2 ∨ field1 ≠ field2 →
     exec (updateLineItem id1 field1 v1 ;; updateLineItem id2 field2 v2) s =
     exec (updateLineItem id2 field2 v2 ;; updateLineItem id1 field1 v1) s).
Proof.
  split.
  - intros id field v1 v2. unfold updateLineItem, setLineItems. js_step.
    unfold modify_draft, with_lineItems. simpl. do 2 f_equal.
    unfold updateLineItem_map. rewrite map_map. apply map_ext. intros item.
    destruct (decide (LineItem.id item = id)) as [Hid|Hid].
    + rewrite decide_True by (by rewrite set_field_id).
      by destruct field.
    + by rewrite decide_False.
  - intros id1 id2 f1 f2 v1 v2 Hne. unfold updateLineItem, setLineItems. js_step.
    unfold modify_draft, with_lineItems. simpl. do 2 f_equal.
    unfold updateLineItem_map. rewrite !map_map. apply map_ext. intros item.
    destruct (decide (LineItem.id item = id1)) as [H1|H1];
      destruct (decide (LineItem.id item = id2)) as [H2|H2];
      rewrite ?set_field_id;
      rewrite ?(decide_True _ _ H1), ?(decide_True _ _ H2),
        ?(decide_False _ _ H1), ?(decide_False _ _ H2); try done.
    destruct Hne as [Hne|Hne]; [congruence|].
    by destruct f1, f2.
Qed.

(** X6: the effect that selects a default customer leaves a chosen customer
    alone, does nothing without customers, selects the first customer
    otherwise, and running it again changes nothing more. *)
Theorem selectDefaultCustomer_only_fills (s : State) :
  let s' := exec selectDefaultCustomer s in
  outcome selectDefaultCustomer s = Normal tt ∧
  (customerId (draft s) ≠ "" ∨ customers (app s) = [] → s' = s) ∧
  (∀ first others,
     customerId (draft s) = "" → customers (app s) = first :: others →
     s' = modify_draft (with_customerId (Customer.id first)) s) ∧
  exec selectDefaultCustomer s' = s'.
Proof.
  unfold selectDefaultCustomer, setCustomerId. js_step.
  destruct (customers (app s)) as [|first others] eqn:Hc.
  { rewrite Hc. repeat split; try done. }
  destruct (truthy_string (customerId (draft s))) eqn:Ht.
  - rewrite Hc, Ht. repeat split; try done.
    intros ? ? Hempty. apply truthy_string_true in Ht. done.
  - apply truthy_string_false in Ht. simpl. rewrite Hc.
    split; [done|]. split; [intros [?|?]; congruence|].
    split; [by intros ? ? _ [= <- <-]|].
    by destruct (truthy_string (Customer.id first)).
Qed.

Section InputsProps.
Variable parseFloat : string → number.

(** X7: the quantity and unit price inputs never store NaN: what
    [parseFloat] makes of the text is stored, and 0 in place of NaN and of
    zero. *)
Theorem number_inputs_never_store_NaN (id value : string) (s : State) :
  let q := exec (quantity_onChange parseFloat id value) s in
  let p := exec (unitPrice_onChange parseFloat id value) s in
  (∀ item, item ∈ lineItems (draft q) → LineItem.id item = id →
     PrimFloat.is_nan (LineItem.quantity item) = false ∧
     LineItem.quantity item =
       if PrimFloat.eqb (parseFloat value) 0 || PrimFloat.is_nan (parseFloat value)
       then 0%float else parseFloat value) ∧
  (∀ item, item ∈ lineItems (draft p) → LineItem.id item = id →
     PrimFloat.is_nan (LineItem.unitPrice item) = false ∧
     LineItem.unitPrice item =
       if PrimFloat.eqb (parseFloat value) 0 || PrimFloat.is_nan (parseFloat value)
       then 0%float else parseFloat value).
Proof.
  simpl. unfold updateLineItem_map. split.
  - intros item [old [-> Hold]]%list_elem_of_fmap Hid.
    destruct (decide (LineItem.id old = id)) as [Ho|Ho]; [|done].
    simpl. split; [apply or_zero_not_nan|done].
  - intros item [old [-> Hold]]%list_elem_of_fmap Hid.
    destruct (decide (LineItem.id old = id)) as [Ho|Ho]; [|done].
    simpl. split; [apply or_zero_not_nan|done].
Qed.
End InputsProps.

Section More.
Context `{!Builtins} `{!JSON (list Customer.t)} `{!JSON (list Document.t)} `{!JSON json}.

(** X8: submitting the customer form twice in a row is submitting it once:
    the first success empties the form and the second submit aborts. *)
Theorem double_submit_adds_once (s : State) :
  exec (handleSubmit ;; handleSubmit) s = exec handleSubmit s.
Proof.
  unfold exec, bind. cbv beta. rewrite (handleSubmit_run s).
  destruct (negb (truthy_string (name (form s))) ||
            negb (truthy_string (email (form s)))) eqn:Hg.
  - cbv beta iota zeta. by rewrite handleSubmit_run, Hg.
  - cbv beta iota zeta. rewrite handleSubmit_run. reflexivity.
Qed.
End More.

Section ContainerMore.
Context {T : Type} `{!JSON T}.

(** X9: when the new contents exceed the quota, [setValue] still updates the
    state cell, leaves the store as it was, logs one error on the console
    and does not throw. *)
Theorem setValue_on_full_store (key : string) (cell : App → T)
    (setCell : T → App → App) (value : T + (T → T)) (s : State) :
  let v :=
    match value with
    | inr f => f (cell (app s))
    | inl v => v
    end in
  let s' := exec (setValue key cell setCell value) s in
  quota (localStorage (world s)) <
    usage (<[key := JSON_stringify v]> (entries (localStorage (world s)))) →
  outcome (setValue key cell setCell value) s = Normal tt ∧
  app s' = setCell v (app s) ∧
  localStorage (world s') = localStorage (world s) ∧
  console (world s') = console (world s) ++ [("", QuotaExceededError)] ∧
  alerts (world s') = alerts (world s).
Proof.
  intros v s' Hfull. unfold s', exec, outcome. rewrite setValue_run. fold v.
  unfold Storage_setItem. simpl. rewrite decide_False by lia. done.
Qed.

(** X10: [setValue] under one key leaves what is stored under every other
    key. *)
Theorem setValue_keeps_other_keys (key other : string) (cell : App → T)
    (setCell : T → App → App) (value : T + (T → T)) (s : State) :
  let s' := exec (setValue key cell setCell value) s in
  other ≠ key →
  Storage_getItem other (localStorage (world s')) =
  Storage_getItem other (localStorage (world s)) ∧
  quota (localStorage (world s')) = quota (localStorage (world s)).
Proof.
  intros s' Hother. unfold s', exec. rewrite setValue_run. cbv zeta.
  unfold Storage_setItem. simpl. case_decide; simpl; [|done].
  unfold Storage_getItem. simpl. by rewrite lookup_insert_ne.
Qed.
End ContainerMore.

(** ** The generator, whatever the reply *)

Section Gen.
Context `{!Builtins} `{!JSON json}.









End Gen.

Section Mount.
Context `{!Builtins} `{!JSON (list Customer.t)} `{!JSON (list Document.t)}.

(** What a read answers from a store. *)
Lemma read_frame {T} `{!JSON T} (key : string) (initialValue : T) (s : State) :
  ∃ v s',
    useLocalStorage_read key initialValue s = (Normal v, s') ∧
    app s' = app s ∧ form s' = form s ∧ draft s' = draft s ∧
    localStorage (world s') = localStorage (world s) ∧
    alerts (world s') = alerts (world s) ∧
    v = match Storage_getItem key (localStorage (world s)) with
        | Some text =>
            match JSON_parse text with
            | Some parsed => parsed
            | None => initialValue
            end
        | None => initialValue
        end.
Proof.
  rewrite useLocalStorage_read_run.
  destruct (Storage_getItem key _) as [text|]; [|by eexists _, _].
  destruct (truthy_string text) eqn:Ht.
  - destruct (JSON_parse text); by eexists _, _.
  - apply truthy_string_false in Ht as ->. rewrite JSON_parse_empty.
    by eexists _, _.
Qed.

Lemma App_mount_run (s : State) :
  ∃ cs ds s',
    App_mount s =
      (Normal tt,
       modify_app (λ _, {| activeView := "dashboard"; customers := cs;
                           documents := ds |}) s') ∧
    form s' = form s ∧ draft s' = draft s ∧
    localStorage (world s') = localStorage (world s) ∧
    alerts (world s') = alerts (world s) ∧
    cs = match Storage_getItem "gendocs_customers" (localStorage (world s)) with
         | Some text =>
             match JSON_parse text with
             | Some parsed => parsed
             | None => []
             end
         | None => []
         end ∧
    ds = match Storage_getItem "gendocs_documents" (localStorage (world s)) with
         | Some text =>
             match JSON_parse text with
             | Some parsed => parsed
             | None => []
             end
         | None => []
         end.
Proof.
  destruct (read_frame (T := list Customer.t) "gendocs_customers" [] s)
    as (cs & s1 & H1 & _ & Hf1 & Hd1 & Hl1 & Ha1 & Hcs).
  destruct (read_frame (T := list Document.t) "gendocs_documents" [] s1)
    as (ds & s2 & H2 & _ & Hf2 & Hd2 & Hl2 & Ha2 & Hds).
  exists cs, ds, s2. unfold App_mount. js_step. rewrite H1, H2.
  rewrite Hl1 in Hds. repeat split; try congruence.
Qed.


(** X13: a document saved to a store that accepts the write is, after a
    reload, the last of the documents [App] mounts with, provided the
    collection is one [JSON.parse] gives back from its text; its total on
    the dashboard is the total the creator showed. *)
Theorem saved_document_survives_reload (s s2 : State) :
  let d := draft s in
  let w := world s in
  let newDoc :=
    {| Document.id := timestamp_toString (clock w (clock_reads w));
       Document.customerId := customerId d;
       Document.type := type d;
       Document.date := Date_toISOString (clock w (S (clock_reads w)));
       Document.lineItems := lineItems d |} in
  let saved := documents (app s) ++ [newDoc] in
  customerId d ≠ "" → lineItems d ≠ [] →
  JSON_parse (JSON_stringify saved) = Some saved →
  usage (<["gendocs_documents" := JSON_stringify saved]>
           (entries (localStorage w))) ≤ quota (localStorage w) →
  localStorage (world s2) = localStorage (world (exec saveDocument s)) →
  documents (app (exec App_mount s2)) = saved ∧
  calculateTotal (Document.lineItems newDoc) = total (lineItems d).
Proof.
  intros d w newDoc saved Hc Hl Hrt Hfit Hsame. split; [|done].
  unfold d, w in *.
  assert (Storage_getItem "gendocs_documents" (localStorage (world s2))
          = Some (JSON_stringify saved)) as Hstored.
  { rewrite Hsame. unfold exec. rewrite saveDocument_run. cbv zeta.
    apply truthy_string_true in Hc. rewrite Hc.
    assert ((length (lineItems (draft s)) =? 0) = false) as ->
      by (by destruct (lineItems (draft s))).
    simpl.
    unfold setDocuments.
    pose proof (setValue_stores "gendocs_documents" documents with_documents
      (inr (λ prev, prev ++ [newDoc]))
      (modify_world (with_clock_reads (S (S (clock_reads (world s))))) s)) as Hst.
    simpl in Hst. specialize (Hst Hfit). unfold exec in Hst. exact Hst. }
  unfold exec.
  destruct (App_mount_run s2) as (cs & ds & s3 & -> & _ & _ & _ & _ & _ & ->).
  simpl. by rewrite Hstored, Hrt.
Qed.

(** X14: likewise a customer added to a store that accepts the write is the
    last of the customers [App] mounts with after a reload. *)
Theorem added_customer_survives_reload (s s2 : State) :
  let f := form s in
  let newCustomer :=
    {| Customer.id :=
         timestamp_toString (clock (world s) (clock_reads (world s)));
       Customer.name := name f; Customer.email := email f;
       Customer.address := address f |} in
  let saved := customers (app s) ++ [newCustomer] in
  name f ≠ "" → email f ≠ "" →
  JSON_parse (JSON_stringify saved) = Some saved →
  usage (<["gendocs_customers" := JSON_stringify saved]>
           (entries (localStorage (world s)))) ≤ quota (localStorage (world s)) →
  localStorage (world s2) = localStorage (world (exec handleSubmit s)) →
  customers (app (exec App_mount s2)) = saved.
Proof.
  intros f newCustomer saved Hn He Hrt Hfit Hsame. unfold f in *.
  assert (Storage_getItem "gendocs_customers" (localStorage (world s2))
          = Some (JSON_stringify saved)) as Hstored.
  { rewrite Hsame. unfold exec. rewrite handleSubmit_run. cbv zeta.
    apply truthy_string_true in Hn, He. rewrite Hn, He. simpl.
    unfold setCustomers.
    pose proof (setValue_stores "gendocs_customers" customers with_customers
      (inr (λ prev, prev ++ [newCustomer]))
      (modify_world (with_clock_reads (S (clock_reads (world s)))) s)) as Hst.
    simpl in Hst. specialize (Hst Hfit). unfold exec in Hst. exact Hst. }
  unfold exec.
  destruct (App_mount_run s2) as (cs & ds & s3 & -> & _ & _ & _ & _ & -> & _).
  simpl. by rewrite Hstored, Hrt.
Qed.
End Mount.

(** ** Sequences of actions *)

Section Traces.
Context `{!Builtins} `{!JSON (list Document.t)} `{!JSON json}.

Lemma run_cons (a : Action) (rest : list Action) (s : State) :
  run (a :: rest) s =
    match dispatch a s with
    | (Normal _, s') => run rest s'
    | (Throw e, s') => (Throw e, s')
    | (IllTyped, s') => (IllTyped, s')
    end.
Proof. reflexivity. Qed.



Lemma seq_S_map {A} (f : nat → A) (n : nat) :
  map f (seq 1 n) = map (λ i, f (S i)) (seq 0 n).
Proof. by rewrite <- seq_shift, map_map. Qed.

Lemma addLineItem_run (s : State) :
  addLineItem s =
    (Normal tt,
     modify_draft
       (λ d, with_lineItems
               (lineItems d ++
                [new_item (clock (world s) (clock_reads (world s)))]) d)
       (modify_world (with_clock_reads (S (clock_reads (world s)))) s)).
Proof. reflexivity. Qed.

Lemma adds_lineItems (n : nat) (s : State) :
  lineItems (draft (run (replicate n ClickAddItem) s).2) =
    lineItems (draft s) ++
    map (λ i, new_item (clock (world s) (clock_reads (world s) + i))) (seq 0 n).
Proof.
  revert s. induction n as [|n IH]; intros s.
  - simpl. by rewrite app_nil_r.
  - change (replicate (S n) ClickAddItem) with (ClickAddItem :: replicate n ClickAddItem).
    rewrite run_cons.
    change (dispatch ClickAddItem s) with (addLineItem s).
    rewrite addLineItem_run. cbv beta iota. rewrite IH. simpl.
    rewrite <- app_assoc. simpl. rewrite Nat.add_0_r. do 2 f_equal.
    rewrite seq_S_map. apply map_ext. intros i. by rewrite Nat.add_succ_r.
Qed.

(** X16: [n] clicks on Add Item add [n] lines; the identifiers stay pairwise
    distinct when they were, the clock reads differently at each click, and
    no line already had one of the new identifiers. *)
Theorem added_items_have_distinct_ids (n : nat) (s : State) :
  let w := world s in
  let s' := exec (run (replicate n ClickAddItem)) s in
  NoDup (map LineItem.id (lineItems (draft s))) →
  (∀ i j, i < n → j < n →
     clock w (clock_reads w + i) = clock w (clock_reads w + j) → i = j) →
  (∀ item i, item ∈ lineItems (draft s) → i < n →
     LineItem.id item ≠ timestamp_toString (clock w (clock_reads w + i))) →
  length (lineItems (draft s')) = length (lineItems (draft s)) + n ∧
  NoDup (map LineItem.id (lineItems (draft s'))).
Proof.
  intros w s' Hold Hclock Hfresh. unfold s', exec. rewrite adds_lineItems.
  split; [by rewrite length_app, length_map, length_seq|].
  rewrite map_app. apply NoDup_app. split; [done|]. split.
  - intros id [item [-> Hitem]]%list_elem_of_fmap Hin.
    rewrite map_map in Hin. apply list_elem_of_fmap in Hin as [i [Hid Hi]].
    apply list_elem_of_In, in_seq in Hi. simpl in Hid.
    apply (Hfresh item i); [done|lia|done].
  - rewrite map_map. simpl.
    apply (NoDup_fmap_2_strong (λ i, timestamp_toString (clock w (clock_reads w + i)))).
    + intros i j Hi%list_elem_of_In%in_seq Hj%list_elem_of_In%in_seq Heq.
      apply timestamp_toString_inj in Heq. apply Hclock; [lia|lia|done].
    + apply NoDup_ListNoDup, seq_NoDup.
Qed.
End Traces.

(** ** More runs *)

Section MoreRuns.
#[local] Existing Instances browser_builtins browser_JSON customers_JSON
  documents_JSON.

Lemma dashboard_partitions_documents_witness :
  invoices [ada_invoice; ada_quotation; ada_invoice] = [ada_invoice; ada_invoice] ∧
  quotations [ada_invoice; ada_quotation; ada_invoice] = [ada_quotation] ∧
  ada_invoice ∉ quotations [ada_invoice; ada_quotation; ada_invoice].
Proof.
  split; [reflexivity|]. split; [reflexivity|].
  destruct (dashboard_partitions_documents
              [ada_invoice; ada_quotation; ada_invoice])
    as (_ & _ & _ & _ & Hdisjoint & _).
  apply Hdisjoint. vm_compute. left.
Defined.

Lemma getCustomerName_falls_back_witness :
  getCustomerName [ada; nameless] "1700000000000" = "Ada" ∧
  getCustomerName [ada; nameless] "1700000000007" = "Unknown" ∧
  getCustomerName [ada; nameless] "c1" = "Unknown".
Proof.
  split; [|split].
  - destruct (getCustomerName_falls_back [ada; nameless] "1700000000000")
      as [_ Hfound].
    apply (Hfound [] ada [nameless]); [reflexivity| |reflexivity].
    intros b Hb. by apply elem_of_nil in Hb.
  - destruct (getCustomerName_falls_back [ada; nameless] "1700000000007")
      as [_ Hfound].
    apply (Hfound [ada] nameless []); [reflexivity| |reflexivity].
    intros b Hb%list_elem_of_singleton. subst b. vm_compute. discriminate.
  - destruct (getCustomerName_falls_back [ada; nameless] "c1") as [Hnone _].
    apply Hnone. intros c Hc.
    apply elem_of_cons in Hc as [->|Hc%list_elem_of_singleton];
      [|subst c]; vm_compute; discriminate.
Defined.


Lemma add_then_remove_restores_witness :
  lineItems (draft (exec (addLineItem ;; removeLineItem "1700000000001")
                      draft_for_c1)) =
  [LineItem.mk "1700000000000" "X" 1%float 100%float].
Proof.
  assert (lineItems (draft draft_for_c1) =
          [LineItem.mk "1700000000000" "X" 1%float 100%float]) as <-
    by (vm_compute; reflexivity).
  apply (add_then_remove_restores draft_for_c1).
  vm_compute. repeat constructor. discriminate.
Defined.

Lemma updateLineItem_composes_witness :
  exec (updateLineItem "1700000000000" description "Design" ;;
        updateLineItem "1700000000000" unitPrice 50%float) draft_for_c1 =
  exec (updateLineItem "1700000000000" unitPrice 50%float ;;
        updateLineItem "1700000000000" description "Design") draft_for_c1.
Proof.
  destruct (updateLineItem_composes draft_for_c1) as [_ Hcommute].
  apply Hcommute. right. discriminate.
Defined.

Lemma selectDefaultCustomer_only_fills_witness :
  customerId (draft (exec selectDefaultCustomer (page_for_ada usual_browser)))
    = "1700000000000" ∧
  exec selectDefaultCustomer draft_for_c1 = draft_for_c1.
Proof.
  split.
  - destruct (selectDefaultCustomer_only_fills (page_for_ada usual_browser))
      as (_ & _ & Hfill & _).
    rewrite (Hfill ada []); reflexivity.
  - destruct (selectDefaultCustomer_only_fills draft_for_c1)
      as (_ & Hkeep & _).
    apply Hkeep. left. vm_compute. discriminate.
Defined.

Lemma number_inputs_never_store_NaN_witness :
  PrimFloat.is_nan (literal_parseFloat "abc") = true ∧
  lineItems (draft (exec (quantity_onChange literal_parseFloat
                            "1700000000000" "abc") draft_for_c1)) =
    [LineItem.mk "1700000000000" "X" 0%float 100%float] ∧
  lineItems (draft (exec (quantity_onChange literal_parseFloat
                            "1700000000000" "2.5") draft_for_c1)) =
    [LineItem.mk "1700000000000" "X" 2.5%float 100%float].
Proof.
  split; [reflexivity|].
  destruct (number_inputs_never_store_NaN literal_parseFloat
              "1700000000000" "abc" draft_for_c1) as [Hq _].
  assert (lineItems (draft (exec (quantity_onChange literal_parseFloat
                            "1700000000000" "abc") draft_for_c1)) =
    [LineItem.mk "1700000000000" "X" 0%float 100%float]) as Habc
    by (vm_compute; reflexivity).
  split; [exact Habc|].
  destruct (Hq (LineItem.mk "1700000000000" "X" 0%float 100%float))
    as [_ _]; [rewrite Habc; left | reflexivity |].
  vm_compute. reflexivity.
Defined.

Lemma setValue_on_full_store_witness :
  customers (app ada_written_to_full_store) = [ada] ∧
  localStorage (world ada_written_to_full_store) =
    localStorage (world page_with_full_store) ∧
  console (world ada_written_to_full_store) = [("", QuotaExceededError)].
Proof.
  destruct (setValue_on_full_store "gendocs_customers" customers
              with_customers (inl [ada]) page_with_full_store)
    as (_ & Happ & Hstore & Hconsole & _).
  { apply Nat.ltb_lt. vm_compute. reflexivity. }
  split; [|split].
  - unfold ada_written_to_full_store, setCustomers. by rewrite Happ.
  - exact Hstore.
  - exact Hconsole.
Defined.

Lemma setValue_keeps_other_keys_witness :
  Storage_getItem "gendocs_customers" (localStorage (world c1_saved)) = None ∧
  Storage_getItem "gendocs_customers"
    (localStorage (world (exec (setCustomers (inl [ada])) c1_saved))) =
    Some (JSON_stringify [ada]) ∧
  Storage_getItem "gendocs_documents"
    (localStorage (world (exec (setCustomers (inl [ada])) c1_saved))) =
  Storage_getItem "gendocs_documents" (localStorage (world c1_saved)).
Proof.
  split; [vm_compute; reflexivity|]. split; [vm_compute; reflexivity|].
  apply (setValue_keeps_other_keys "gendocs_customers" "gendocs_documents"
           customers with_customers (inl [ada]) c1_saved).
  discriminate.
Defined.



Lemma saved_document_survives_reload_witness :
  documents (app c1_reloaded) =
    [Document.mk "1700000000001" "c1" Invoice "2023-11-14T22:13:20.002Z"
       [LineItem.mk "1700000000000" "X" 1%float 100%float]] ∧
  calculateTotal [LineItem.mk "1700000000000" "X" 1%float 100%float] = 100%float.
Proof.
  split; [|reflexivity].
  destruct (saved_document_survives_reload draft_for_c1 (page (world c1_saved)))
    as [Hdocs _].
  - vm_compute. discriminate.
  - vm_compute. discriminate.
  - vm_compute. reflexivity.
  - apply Nat.leb_le. vm_compute. reflexivity.
  - reflexivity.
  - unfold c1_reloaded. rewrite Hdocs. vm_compute. reflexivity.
Defined.

Lemma added_customer_survives_reload_witness :
  customers (app ada_reloaded) = [ada].
Proof.
  unfold ada_reloaded.
  rewrite (added_customer_survives_reload form_for_ada (page (world ada_added))).
  - vm_compute. reflexivity.
  - vm_compute. discriminate.
  - vm_compute. discriminate.
  - vm_compute. reflexivity.
  - apply Nat.leb_le. vm_compute. reflexivity.
  - reflexivity.
Defined.


Lemma added_items_have_distinct_ids_witness :
  map LineItem.id
    (lineItems (draft (exec (run (replicate 3 ClickAddItem))
                         (page usual_browser)))) =
    ["1700000000000"; "1700000000001"; "1700000000002"] ∧
  NoDup (map LineItem.id
           (lineItems (draft (exec (run (replicate 3 ClickAddItem))
                                (page usual_browser))))).
Proof.
  split; [vm_compute; reflexivity|].
  apply (added_items_have_distinct_ids 3 (page usual_browser)).
  - constructor.
  - intros i j _ _ Heq. unfold usual_browser, browser, ticking_clock in Heq.
    simpl in Heq. lia.
  - intros item i Hitem. by apply elem_of_nil in Hitem.
Defined.
End MoreRuns.
